(** * iobroker-plugin-mdns: the advertisement lifecycle wrapper

    A shallow embedding of [MdnsPlugin] (src/index.ts, both the
    bonjour-service binding and the @homebridge/ciao binding) and the
    properties of its configuration resolution, publish step and teardown.

    Conventions of the embedding:
    - an optional field ([x?: T]) is an [option]; [None] is [undefined];
    - a JS number is an integer-valued double or [NaN]; [Num z] stands for
      the double nearest to [z] (the program only tests a number for
      truthiness, compares its runtime type, passes it on and prints it);
    - a JS string is a [string]; the only string the program inspects is the
      plugin namespace, character by character;
    - the plugin instance, the logger and the external mDNS library are a
      state threaded through a small state-and-exception monad; [await] on
      a rejected promise is a [throw], and the single thread of control of
      the host makes [async] code sequential. *)

From stdpp Require Import base option list strings gmap fin_maps pretty.
From Stdlib Require Import ZArith Lia Ascii String.

Local Open Scope string_scope.
Local Open Scope Z_scope.

(** ** JavaScript values *)

Inductive number :=
| Num (z : Z)
| NaN.

(** [ToBoolean] on a number: [0] and [NaN] are falsy. *)
Definition number_truthy (n : number) : bool :=
  match n with
  | Num z => negb (z =? 0)
  | NaN => false
  end.

(** The double nearest to the integer [a > 0], ties to the even
    significand; an integer below [2^53] is a double already. *)
Definition nearest_double (a : Z) : Z :=
  let b := Z.log2 a in
  if b <=? 52 then a
  else
    let e := b - 52 in
    let q := a / 2 ^ e in
    let r := a mod 2 ^ e in
    let half := 2 ^ (e - 1) in
    let q' := if (half <? r) || ((r =? half) && Z.odd q) then q + 1 else q in
    q' * 2 ^ e.

(** The largest finite double. *)
Definition max_double : Z := (2 ^ 53 - 1) * 2 ^ 971.

(** The distance from a double [x >= 2^53] to the next one. *)
Definition ulp (x : Z) : Z := 2 ^ (Z.log2 x - 52).

(** [y] reads back as the double [x >= 2^53]: it lies between the
    midpoints to the neighbouring doubles, the midpoints themselves
    included when the significand of [x] is even.  Bounds are scaled by
    four to stay in the integers. *)
Definition reads_back_as (x y : Z) : bool :=
  let u := ulp x in
  let lower := if x =? 2 ^ Z.log2 x then 4 * x - u else 4 * x - 2 * u in
  let upper := 4 * x + 2 * u in
  if Z.even (x / u)
  then (lower <=? 4 * y) && (4 * y <=? upper)
  else (lower <? 4 * y) && (4 * y <? upper).

(** The decimal with the fewest significant digits that reads back as
    [x]: the multiple of the largest power of ten, nearest to [x]. *)
Fixpoint shortest_decimal (p : nat) (x : Z) : Z :=
  match p with
  | O => x
  | S p' =>
      let pw := 10 ^ Z.of_nat p in
      let y1 := x / pw * pw in
      let y2 := y1 + pw in
      let ok1 := (0 <? y1) && reads_back_as x y1 in
      let ok2 := reads_back_as x y2 in
      if ok1 && ok2 then
        if x - y1 <? y2 - x then y1
        else if y2 - x <? x - y1 then y2
        else if Z.even (y1 / pw) then y1 else y2
      else if ok1 then y1
      else if ok2 then y2
      else shortest_decimal p' x
  end.

Fixpoint strip_trailing_zeros (s : string) : string :=
  match s with
  | EmptyString => EmptyString
  | String c s' =>
      match strip_trailing_zeros s' with
      | EmptyString => if bool_decide (c = "0"%char) then EmptyString else String c EmptyString
      | t => String c t
      end
  end.

(** [Number::toString] on a positive integer-valued double: plain digits
    up to 21 of them, exponent form beyond. *)
Definition double_to_string (x : Z) : string :=
  let digits := pretty (shortest_decimal (String.length (pretty x)) x) in
  let n := String.length digits in
  if (n <=? 21)%nat then digits
  else
    match strip_trailing_zeros digits with
    | EmptyString => digits
    | String d EmptyString => String d ("e+" ++ pretty (n - 1)%nat)
    | String d rest => String d ("." ++ rest ++ "e+" ++ pretty (n - 1)%nat)
    end.

Definition positive_to_string (a : Z) : string :=
  if a <? 2 ^ 53 then pretty a
  else
    let x := nearest_double a in
    if max_double <? x then "Infinity" else double_to_string x.

(** [ToString] on a number, as a template literal applies it. *)
Definition number_to_string (n : number) : string :=
  match n with
  | Num z =>
      if z <? 0 then "-" ++ positive_to_string (- z)
      else positive_to_string z
  | NaN => "NaN"
  end.

(** [ToBoolean] on a string: only the empty string is falsy. *)
Definition string_truthy (s : string) : bool :=
  match s with
  | EmptyString => false
  | String _ _ => true
  end.

(** [ToBoolean] on an optional field: [undefined] is falsy. *)
Definition truthy {A : Type} (t : A → bool) (o : option A) : bool :=
  match o with
  | Some a => t a
  | None => false
  end.

(** A dynamically typed value, as found under a key of the adapter's
    [native] configuration. *)
Inductive js_value :=
| VUndefined
| VNull
| VBoolean (b : bool)
| VNumber (n : number)
| VString (s : string)
| VObject.

Inductive js_type := TUndefined | TObject | TBoolean | TNumber | TString.

Definition js_type_eqb (a b : js_type) : bool :=
  match a, b with
  | TUndefined, TUndefined | TObject, TObject | TBoolean, TBoolean
  | TNumber, TNumber | TString, TString => true
  | _, _ => false
  end.

Definition typeof (v : js_value) : js_type :=
  match v with
  | VUndefined => TUndefined
  | VNull => TObject
  | VBoolean _ => TBoolean
  | VNumber _ => TNumber
  | VString _ => TString
  | VObject => TObject
  end.

(** A value that a library call throws, or that a promise is rejected
    with.  [catch (err: any)] receives any of them. *)
Inductive thrown :=
| ThrownUndefined
| ThrownNull
| ThrownError (message : string)   (* a value whose [message] reads as this string *)
| ThrownOther                      (* a value without a [message] property *)
| ThrownUnreadable (raised : thrown).
    (* an object whose [message] cannot be read or converted to a string:
       a getter or a [toString] that throws [raised], or a Symbol, for
       which the conversion throws a [TypeError] *)

(** ** Configuration *)

Module Config.
Record t := mk {
  enabled : option bool;
  serviceType : option string;
  port : option number;
  portKey : option string;
  defaultPort : option number;
  serviceName : option string;
  txt : option (gmap string string)
}.

Definition empty : t := mk None None None None None None None.
End Config.

(** The object literal handed to the library's publish call. *)
Module Options.
Record t := mk {
  name : string;
  type : string;
  port : number;
  txt : gmap string string
}.
End Options.

(** What the host framework and the operating system supply. *)
Record IoPackage := { native : option (gmap string js_value) }.

Record Host := {
  pluginNamespace : option string;
  parentIoPackage : option IoPackage;
  hostname : string
}.

(** ** Adapter-name extraction

    [ns.match(/system\.adapter\.([^.]+)\./)]: an unanchored search for the
    leftmost position where the literal prefix is followed by a non-empty
    run of characters other than a dot, and then a dot. *)

Definition dot : ascii := "."%char.

Definition is_dot (c : ascii) : bool := bool_decide (c = dot).

(** Drop a literal prefix, when the string starts with it. *)
Fixpoint strip_prefix (p s : string) : option string :=
  match p with
  | EmptyString => Some s
  | String a p' =>
      match s with
      | EmptyString => None
      | String b s' => if bool_decide (a = b) then strip_prefix p' s' else None
      end
  end.

(** The greedy group [[^.]*]: the longest dot-free prefix and what follows. *)
Fixpoint span_token (s : string) : string * string :=
  match s with
  | EmptyString => (EmptyString, EmptyString)
  | String c s' =>
      if is_dot c then (EmptyString, s)
      else let '(tok, rest) := span_token s' in (String c tok, rest)
  end.

(** The pattern tried at the start of [s]; the result is capture group 1.
    The group cannot give characters back to let the final dot match,
    since it holds no dot, so the greedy run is the only candidate. *)
Definition match_here (s : string) : option string :=
  match strip_prefix "system.adapter." s with
  | None => None
  | Some r =>
      match span_token r with
      | (EmptyString, _) => None
      | (tok, String c _) => if is_dot c then Some tok else None
      | (_, EmptyString) => None
      end
  end.

(** [String.prototype.match] without the [g] flag: leftmost match. *)
Fixpoint regex_match (s : string) : option string :=
  match match_here s with
  | Some tok => Some tok
  | None =>
      match s with
      | EmptyString => None
      | String _ s' => regex_match s'
      end
  end.

Definition getAdapterName (h : Host) : string :=
  let ns := match pluginNamespace h with
            | Some s => if string_truthy s then s else EmptyString
            | None => EmptyString
            end in
  match regex_match ns with
  | Some m1 => m1
  | None => "unknown"
  end.

(** ** Port lookup in the adapter's native configuration

    [native] is a plain data object, so reading a key of it cannot throw
    and the [catch] of the source is never entered; a missing package or
    a missing [native] is the falsy left operand of [&&]. *)

Definition getPortFromConfig (h : Host) (portKey : string) : option number :=
  match parentIoPackage h with
  | None => None
  | Some pkg =>
      match native pkg with
      | None => None
      | Some nat_cfg =>
          let v := default VUndefined (nat_cfg !! portKey) in
          if js_type_eqb (typeof v) TNumber
          then match v with VNumber n => Some n | _ => None end
          else None
      end
  end.

(** ** Resolution of the advertisement parameters *)

(** [a || d] on an optional string. *)
Definition or_else (o : option string) (d : string) : string :=
  match o with
  | Some a => if string_truthy a then a else d
  | None => d
  end.

(** The variable [port] of [init] after its two conditional assignments
    (lines 71 to 77); [init] then tests it once more for truthiness. *)
Definition resolvePort (h : Host) (cfg : Config.t) : option number :=
  let port := Config.port cfg in
  let port :=
    if negb (truthy number_truthy port) && truthy string_truthy (Config.portKey cfg)
    then getPortFromConfig h (default EmptyString (Config.portKey cfg))
    else port in
  let port :=
    if negb (truthy number_truthy port) && truthy number_truthy (Config.defaultPort cfg)
    then Config.defaultPort cfg
    else port in
  port.

(** The constant [serviceType] of [init] (line 68). *)
Definition resolveServiceType (h : Host) (cfg : Config.t) : string :=
  or_else (Config.serviceType cfg) ("iobroker-" ++ getAdapterName h).

(** The constant [serviceName] of [init] (line 85). *)
Definition resolveServiceName (h : Host) (cfg : Config.t) : string :=
  or_else (Config.serviceName cfg)
          ("ioBroker " ++ getAdapterName h ++ " (" ++ hostname h ++ ")").

(** Object spread [{ ...dst, ...src }]: the keys of [src] win. *)
Definition spread (dst src : gmap string string) : gmap string string :=
  src ∪ dst.

(** The constant [txt] of [init] (lines 88 to 92):
    [{ adapter: adapterName, hostname: hostname, ...(pluginConfig.txt || {}) }];
    an object is always truthy, so [||] only replaces [undefined]. *)
Definition buildTxt (h : Host) (cfg : Config.t) : gmap string string :=
  spread (<["hostname" := hostname h]> (<["adapter" := getAdapterName h]> ∅))
         (default ∅ (Config.txt cfg)).

(** The argument of the publish call (lines 99 to 104). *)
Definition buildOptions (h : Host) (cfg : Config.t) (port : number) : Options.t :=
  {| Options.name := resolveServiceName h cfg;
     Options.type := resolveServiceType h cfg;
     Options.port := port;
     Options.txt := buildTxt h cfg |}.

(** ** Log lines *)

Inductive level := Info | Warn | Error | Debug.

Record log_entry := LogEntry { severity : level; text : string }.

Definition dquote : string := String "034"%char EmptyString.

Definition msg_disabled : string := "mDNS plugin disabled by user".

Definition msg_no_port : string :=
  "mDNS plugin: no port configured. Set " ++ dquote ++ "port" ++ dquote ++ ", "
  ++ dquote ++ "portKey" ++ dquote ++ ", or " ++ dquote ++ "defaultPort" ++ dquote
  ++ " in plugin config.".

Definition msg_published (serviceType : string) (port : number) (serviceName : string)
  : string :=
  "mDNS service published: _" ++ serviceType ++ "._tcp on port "
  ++ number_to_string port ++ " as " ++ dquote ++ serviceName ++ dquote.

Definition msg_failed (message : string) : string :=
  "mDNS plugin failed to publish service: " ++ message.

Definition msg_destroyed : string := "mDNS plugin destroyed".

(** ** Effects: plugin fields, log, library calls, exceptions *)

Inductive outcome (A : Type) :=
| Ret (a : A)
| Throw (e : thrown).
Arguments Ret {A} a.
Arguments Throw {A} e.

Record world (P C : Type) := World {
  this : P;                 (* the fields of the plugin instance *)
  log : list log_entry;     (* lines written so far, oldest first *)
  calls : list C            (* library calls made so far, oldest first *)
}.
Arguments World {P C} this log calls.
Arguments this {P C} w.
Arguments log {P C} w.
Arguments calls {P C} w.

Definition M (P C A : Type) : Type := world P C → outcome A * world P C.

Section Effects.
Context {P C : Type}.

Definition ret {A} (a : A) : M P C A := fun w => (Ret a, w).

Definition throw {A} (e : thrown) : M P C A := fun w => (Throw e, w).

Definition bind {A B} (m : M P C A) (k : A → M P C B) : M P C B :=
  fun w =>
    match m w with
    | (Ret a, w') => k a w'
    | (Throw e, w') => (Throw e, w')
    end.

(** [try { body } catch (err) { handler }] *)
Definition try_catch {A} (body : M P C A) (handler : thrown → M P C A) : M P C A :=
  fun w =>
    match body w with
    | (Ret a, w') => (Ret a, w')
    | (Throw e, w') => handler e w'
    end.

Definition get_this : M P C P := fun w => (Ret (this w), w).

Definition modify_this (f : P → P) : M P C unit :=
  fun w => (Ret tt, World (f (this w)) (log w) (calls w)).

Definition log_at (l : level) (msg : string) : M P C unit :=
  fun w => (Ret tt, World (this w) (log w ++ [LogEntry l msg]) (calls w)).

(** A call into the library: recorded, then it returns or throws as the
    library decides. *)
Definition invoke {A} (c : C) (reply : outcome A) : M P C A :=
  fun w => (reply, World (this w) (log w) (calls w ++ [c])).

(** Reading [err.message] inside a template literal: a [TypeError] on
    [undefined] and [null], the text [undefined] on a value that has no
    such property, and whatever the read or the conversion to a string
    throws on a value whose message is unreadable. *)
Definition message_of (err : thrown) : M P C string :=
  match err with
  | ThrownUndefined =>
      throw (ThrownError "Cannot read properties of undefined (reading 'message')")
  | ThrownNull =>
      throw (ThrownError "Cannot read properties of null (reading 'message')")
  | ThrownError m => ret m
  | ThrownOther => ret "undefined"
  | ThrownUnreadable raised => throw raised
  end.
End Effects.

Notation "'let!' x ':=' m 'in' k" := (bind m (fun x => k))
  (at level 10, x name, m at level 100, k at level 200, only parsing).
Notation "'exec' m 'then' k" := (bind m (fun _ => k))
  (at level 10, m at level 100, k at level 200, only parsing).

(** Run a method on a fresh log and call record, from given plugin fields. *)
Definition run {P C A} (m : M P C A) (p : P) : outcome A * world P C :=
  m (World p [] []).

(** ** The bonjour-service binding (src/index.ts) *)

Module Bonjour.
(** The library's objects, as far as the plugin looks into them; a
    number tells one responder instance from another. *)
Record Instance := { instance_id : nat }.

Definition instance : Instance := {| instance_id := 0 |}.

Record Service := {
  options : Options.t;
  stop : bool            (* whether the optional method [stop] is defined *)
}.

Record Plugin := {
  bonjour : option Instance;
  service : option Service
}.

Definition fresh : Plugin := {| bonjour := None; service := None |}.

Definition set_bonjour (b : option Instance) (p : Plugin) : Plugin :=
  {| bonjour := b; service := service p |}.

Definition set_service (s : option Service) (p : Plugin) : Plugin :=
  {| bonjour := bonjour p; service := s |}.

Inductive call :=
| Import                     (* await import('bonjour-service') *)
| New                        (* new BonjourService() *)
| Publish (o : Options.t)    (* bonjour.publish({...}) *)
| Stop (s : Service)         (* service.stop() *)
| UnpublishAll               (* bonjour.unpublishAll() *)
| Destroy.                   (* bonjour.destroy() *)

(** How the library answers during one run of a method. *)
Record library := {
  on_import : outcome unit;
  on_new : outcome Instance;
  on_publish : Options.t → outcome Service;
  on_stop : Service → outcome unit;
  on_unpublishAll : outcome unit;
  on_destroy : outcome unit
}.

Section Methods.
Variable host : Host.
Variable lib : library.

Definition init (pluginConfig : Config.t) : M Plugin call unit :=
  if negb (truthy id (Config.enabled pluginConfig)) then
    log_at Info msg_disabled
  else
    let adapterName := getAdapterName host in
    let serviceType :=
      or_else (Config.serviceType pluginConfig) ("iobroker-" ++ adapterName) in
    match resolvePort host pluginConfig with
    | None => log_at Warn msg_no_port
    | Some port =>
        if negb (number_truthy port) then log_at Warn msg_no_port
        else
          let hostname := hostname host in
          let serviceName :=
            or_else (Config.serviceName pluginConfig)
                    ("ioBroker " ++ adapterName ++ " (" ++ hostname ++ ")") in
          let txt :=
            spread (<["hostname" := hostname]> (<["adapter" := adapterName]> ∅))
                   (default ∅ (Config.txt pluginConfig)) in
          try_catch
            (exec invoke Import (on_import lib) then
             let! b := invoke New (on_new lib) in
             exec modify_this (set_bonjour (Some b)) then
             let o := {| Options.name := serviceName; Options.type := serviceType;
                         Options.port := port; Options.txt := txt |} in
             let! s := invoke (Publish o) (on_publish lib o) in
             exec modify_this (set_service (Some s)) then
             log_at Info (msg_published serviceType port serviceName))
            (fun err =>
               let! message := message_of err in
               log_at Error (msg_failed message))
    end.

Definition destroy : M Plugin call bool :=
  let! p := get_this in
  exec match service p with
       | Some s =>
           exec try_catch
                  (if stop s then invoke (Stop s) (on_stop lib s) else ret tt)
                  (fun _ => ret tt) then
           modify_this (set_service None)
       | None => ret tt
       end then
  let! p := get_this in
  exec match bonjour p with
       | Some b =>
           exec try_catch
                  (exec invoke UnpublishAll (on_unpublishAll lib) then
                   invoke Destroy (on_destroy lib))
                  (fun _ => ret tt) then
           modify_this (set_bonjour None)
       | None => ret tt
       end then
  exec log_at Debug msg_destroyed then
  ret true.
End Methods.
End Bonjour.

(** ** The @homebridge/ciao binding *)

Module Ciao.
(** The library's objects; a number tells one responder from another. *)
Record Responder := { responder_id : nat }.

Definition the_responder : Responder := {| responder_id := 0 |}.

Record CiaoService := { options : Options.t }.

Record Plugin := {
  responder : option Responder;
  service : option CiaoService
}.

Definition fresh : Plugin := {| responder := None; service := None |}.

Definition set_responder (r : option Responder) (p : Plugin) : Plugin :=
  {| responder := r; service := service p |}.

Definition set_service (s : option CiaoService) (p : Plugin) : Plugin :=
  {| responder := responder p; service := s |}.

Inductive call :=
| Import                         (* await import('@homebridge/ciao') *)
| GetResponder                   (* ciao.getResponder() *)
| CreateService (o : Options.t)  (* responder.createService({...}) *)
| Advertise (s : CiaoService)    (* await service.advertise() *)
| End_ (s : CiaoService)         (* await service.end() *)
| Shutdown.                      (* await responder.shutdown() *)

Record library := {
  on_import : outcome unit;
  on_getResponder : outcome Responder;
  on_createService : Options.t → outcome CiaoService;
  on_advertise : CiaoService → outcome unit;
  on_end : CiaoService → outcome unit;
  on_shutdown : outcome unit
}.

Section Methods.
Variable host : Host.
Variable lib : library.

Definition init (pluginConfig : Config.t) : M Plugin call unit :=
  if negb (truthy id (Config.enabled pluginConfig)) then
    log_at Info msg_disabled
  else
    let adapterName := getAdapterName host in
    let serviceType :=
      or_else (Config.serviceType pluginConfig) ("iobroker-" ++ adapterName) in
    match resolvePort host pluginConfig with
    | None => log_at Warn msg_no_port
    | Some port =>
        if negb (number_truthy port) then log_at Warn msg_no_port
        else
          let hostname := hostname host in
          let serviceName :=
            or_else (Config.serviceName pluginConfig)
                    ("ioBroker " ++ adapterName ++ " (" ++ hostname ++ ")") in
          let txt :=
            spread (<["hostname" := hostname]> (<["adapter" := adapterName]> ∅))
                   (default ∅ (Config.txt pluginConfig)) in
          try_catch
            (exec invoke Import (on_import lib) then
             let! r := invoke GetResponder (on_getResponder lib) in
             exec modify_this (set_responder (Some r)) then
             let o := {| Options.name := serviceName; Options.type := serviceType;
                         Options.port := port; Options.txt := txt |} in
             let! s := invoke (CreateService o) (on_createService lib o) in
             exec modify_this (set_service (Some s)) then
             exec invoke (Advertise s) (on_advertise lib s) then
             log_at Info (msg_published serviceType port serviceName))
            (fun err =>
               let! message := message_of err in
               log_at Error (msg_failed message))
    end.

Definition destroy : M Plugin call bool :=
  let! p := get_this in
  exec match service p with
       | Some s =>
           exec try_catch (invoke (End_ s) (on_end lib s)) (fun _ => ret tt) then
           modify_this (set_service None)
       | None => ret tt
       end then
  let! p := get_this in
  exec match responder p with
       | Some r =>
           exec try_catch (invoke Shutdown (on_shutdown lib)) (fun _ => ret tt) then
           modify_this (set_responder None)
       | None => ret tt
       end then
  exec log_at Debug msg_destroyed then
  ret true.
End Methods.
End Ciao.

(** ** The responder as one abstract capability

    The capability of the spec's section 6: construct the responder,
    advertise a service description, stop the service, shut the responder
    down; each request succeeds or throws.  The capability follows the
    spec's words; the two bindings above are the source.  Each binding's
    library is implemented on top of the capability, and each binding's
    calls and handles are read back as requests to it. *)

Module Capability.
Inductive call :=
| Construct
| Advertise (o : Options.t)
| StopService (o : Options.t)
| Shutdown.

(** [None]: the request succeeds; [Some e]: it throws [e]. *)
Record t := {
  construct : option thrown;
  advertise : Options.t → option thrown;
  stop : Options.t → option thrown;
  shutdown : option thrown
}.

Record handles := {
  responder_held : bool;
  service_held : option Options.t
}.

(** What a run shows at the level of the capability. *)
Record observation (A : Type) := {
  result : outcome A;
  held : handles;
  lines : list log_entry;
  requests : list call
}.
Arguments result {A} o.
Arguments held {A} o.
Arguments lines {A} o.
Arguments requests {A} o.

Definition reply {A : Type} (o : option thrown) (a : A) : outcome A :=
  match o with
  | None => Ret a
  | Some e => Throw e
  end.

Definition is_held {A : Type} (o : option A) : bool :=
  match o with
  | Some _ => true
  | None => false
  end.
End Capability.

Definition Bonjour_bind (cap : Capability.t) : Bonjour.library :=
  {| Bonjour.on_import := Ret tt;
     Bonjour.on_new := Capability.reply (Capability.construct cap) Bonjour.instance;
     Bonjour.on_publish := fun o =>
       Capability.reply (Capability.advertise cap o)
                        {| Bonjour.options := o; Bonjour.stop := true |};
     Bonjour.on_stop := fun s =>
       Capability.reply (Capability.stop cap (Bonjour.options s)) tt;
     Bonjour.on_unpublishAll := Capability.reply (Capability.shutdown cap) tt;
     Bonjour.on_destroy := Ret tt |}.

Definition Ciao_bind (cap : Capability.t) : Ciao.library :=
  {| Ciao.on_import := Ret tt;
     Ciao.on_getResponder :=
       Capability.reply (Capability.construct cap) Ciao.the_responder;
     Ciao.on_createService := fun o => Ret {| Ciao.options := o |};
     Ciao.on_advertise := fun s =>
       Capability.reply (Capability.advertise cap (Ciao.options s)) tt;
     Ciao.on_end := fun s =>
       Capability.reply (Capability.stop cap (Ciao.options s)) tt;
     Ciao.on_shutdown := Capability.reply (Capability.shutdown cap) tt |}.

Definition Bonjour_request (c : Bonjour.call) : list Capability.call :=
  match c with
  | Bonjour.Import => []
  | Bonjour.New => [Capability.Construct]
  | Bonjour.Publish o => [Capability.Advertise o]
  | Bonjour.Stop s => [Capability.StopService (Bonjour.options s)]
  | Bonjour.UnpublishAll => [Capability.Shutdown]
  | Bonjour.Destroy => []
  end.

Definition Ciao_request (c : Ciao.call) : list Capability.call :=
  match c with
  | Ciao.Import => []
  | Ciao.GetResponder => [Capability.Construct]
  | Ciao.CreateService _ => []
  | Ciao.Advertise s => [Capability.Advertise (Ciao.options s)]
  | Ciao.End_ s => [Capability.StopService (Ciao.options s)]
  | Ciao.Shutdown => [Capability.Shutdown]
  end.

Definition Bonjour_handles (p : Bonjour.Plugin) : Capability.handles :=
  {| Capability.responder_held := Capability.is_held (Bonjour.bonjour p);
     Capability.service_held := Bonjour.options <$> Bonjour.service p |}.

Definition Ciao_handles (p : Ciao.Plugin) : Capability.handles :=
  {| Capability.responder_held := Capability.is_held (Ciao.responder p);
     Capability.service_held := Ciao.options <$> Ciao.service p |}.

Definition Bonjour_observe {A : Type}
           (r : outcome A * world Bonjour.Plugin Bonjour.call) : Capability.observation A :=
  {| Capability.result := fst r;
     Capability.held := Bonjour_handles (this (snd r));
     Capability.lines := log (snd r);
     Capability.requests := flat_map Bonjour_request (calls (snd r)) |}.

Definition Ciao_observe {A : Type}
           (r : outcome A * world Ciao.Plugin Ciao.call) : Capability.observation A :=
  {| Capability.result := fst r;
     Capability.held := Ciao_handles (this (snd r));
     Capability.lines := log (snd r);
     Capability.requests := flat_map Ciao_request (calls (snd r)) |}.

(** ** The publish step of [init], restated *)

(** The [try] statement of [init], over the named resolution functions. *)
Definition Bonjour_publish_step (h : Host) (lib : Bonjour.library) (cfg : Config.t)
           (port : number) : M Bonjour.Plugin Bonjour.call unit :=
  try_catch
    (exec invoke Bonjour.Import (Bonjour.on_import lib) then
     let! b := invoke Bonjour.New (Bonjour.on_new lib) in
     exec modify_this (Bonjour.set_bonjour (Some b)) then
     let! s := invoke (Bonjour.Publish (buildOptions h cfg port))
                      (Bonjour.on_publish lib (buildOptions h cfg port)) in
     exec modify_this (Bonjour.set_service (Some s)) then
     log_at Info (msg_published (resolveServiceType h cfg) port (resolveServiceName h cfg)))
    (fun err =>
       let! message := message_of err in
       log_at Error (msg_failed message)).

Definition Ciao_publish_step (h : Host) (lib : Ciao.library) (cfg : Config.t)
           (port : number) : M Ciao.Plugin Ciao.call unit :=
  try_catch
    (exec invoke Ciao.Import (Ciao.on_import lib) then
     let! r := invoke Ciao.GetResponder (Ciao.on_getResponder lib) in
     exec modify_this (Ciao.set_responder (Some r)) then
     let! s := invoke (Ciao.CreateService (buildOptions h cfg port))
                      (Ciao.on_createService lib (buildOptions h cfg port)) in
     exec modify_this (Ciao.set_service (Some s)) then
     exec invoke (Ciao.Advertise s) (Ciao.on_advertise lib s) then
     log_at Info (msg_published (resolveServiceType h cfg) port (resolveServiceName h cfg)))
    (fun err =>
       let! message := message_of err in
       log_at Error (msg_failed message)).

(** ** Predicates of the statements *)

Definition adapter_prefix : string := "system.adapter.".

(** A token of the namespace: what the group [[^.]+] can hold. *)
Fixpoint dot_free (s : string) : bool :=
  match s with
  | EmptyString => true
  | String c s' => negb (is_dot c) && dot_free s'
  end.

(** The pattern occurs somewhere in [ns]. *)
Definition matches_pattern (ns : string) : Prop :=
  ∃ pre tok post : string,
    ns = (pre ++ adapter_prefix ++ tok ++ "." ++ post)%string
    ∧ tok ≠ EmptyString ∧ dot_free tok = true.

Definition is_nullish (e : thrown) : bool :=
  match e with
  | ThrownUndefined | ThrownNull => true
  | ThrownError _ | ThrownOther | ThrownUnreadable _ => false
  end.

(** The text that [err.message] contributes to the error line, when it
    can be read. *)
Definition readable_message (e : thrown) : option string :=
  match e with
  | ThrownError m => Some m
  | ThrownOther => Some "undefined"
  | ThrownUndefined | ThrownNull | ThrownUnreadable _ => None
  end.

(** One library call of the publish step throws [e]. *)
Inductive Bonjour_fails (lib : Bonjour.library) (o : Options.t) (e : thrown) : Prop :=
| Bonjour_fails_import :
    Bonjour.on_import lib = Throw e → Bonjour_fails lib o e
| Bonjour_fails_new :
    Bonjour.on_import lib = Ret tt → Bonjour.on_new lib = Throw e →
    Bonjour_fails lib o e
| Bonjour_fails_publish b :
    Bonjour.on_import lib = Ret tt → Bonjour.on_new lib = Ret b →
    Bonjour.on_publish lib o = Throw e → Bonjour_fails lib o e.

Inductive Ciao_fails (lib : Ciao.library) (o : Options.t) (e : thrown) : Prop :=
| Ciao_fails_import :
    Ciao.on_import lib = Throw e → Ciao_fails lib o e
| Ciao_fails_getResponder :
    Ciao.on_import lib = Ret tt → Ciao.on_getResponder lib = Throw e →
    Ciao_fails lib o e
| Ciao_fails_createService r :
    Ciao.on_import lib = Ret tt → Ciao.on_getResponder lib = Ret r →
    Ciao.on_createService lib o = Throw e → Ciao_fails lib o e
| Ciao_fails_advertise r s :
    Ciao.on_import lib = Ret tt → Ciao.on_getResponder lib = Ret r →
    Ciao.on_createService lib o = Ret s → Ciao.on_advertise lib s = Throw e →
    Ciao_fails lib o e.

(** The number of dots of a namespace. *)
Fixpoint count_dots (s : string) : nat :=
  match s with
  | EmptyString => O
  | String c s' => ((if is_dot c then 1 else 0) + count_dots s')%nat
  end.

(** The configuration with [portKey] left out. *)
Definition without_portKey (cfg : Config.t) : Config.t :=
  Config.mk (Config.enabled cfg) (Config.serviceType cfg) (Config.port cfg) None
            (Config.defaultPort cfg) (Config.serviceName cfg) (Config.txt cfg).

(** ** Sample hosts, configurations and library behaviours *)

Definition host_foo : Host :=
  {| pluginNamespace := Some "system.adapter.foo.0.plugins.mdns";
     parentIoPackage := None;
     hostname := "host1" |}.

Definition host_no_instance : Host :=
  {| pluginNamespace := Some "system.adapter.foo";
     parentIoPackage := None;
     hostname := "host1" |}.

Definition host_native (nat_cfg : gmap string js_value) : Host :=
  {| pluginNamespace := Some "system.adapter.foo.0.plugins.mdns";
     parentIoPackage := Some {| native := Some nat_cfg |};
     hostname := "host1" |}.

Definition config_enabled_only : Config.t :=
  Config.mk (Some true) None None None None None None.

Definition config_port : Config.t :=
  Config.mk (Some true) None (Some (Num 8089)) None None None None.

Definition config_port_and_key : Config.t :=
  Config.mk (Some true) None (Some (Num 8089)) (Some "x") None None None.

Definition config_key_only : Config.t :=
  Config.mk (Some true) None None (Some "x") None None None.

Definition host_port_as_string : Host :=
  host_native {[ "x" := VString "9999" ]}.

Definition config_default_only : Config.t :=
  Config.mk (Some true) None None None (Some (Num 7000)) None None.

Definition config_key_and_default : Config.t :=
  Config.mk (Some true) None None (Some "x") (Some (Num 7000)) None None.

Definition config_txt_override : Config.t :=
  Config.mk (Some true) None (Some (Num 8089)) None None None
            (Some {[ "adapter" := "custom"; "path" := "/audio" ]}).

Definition config_named : Config.t :=
  Config.mk (Some true) (Some "iobroker-ai") (Some (Num 8089)) None None
            (Some "Kitchen") None.

Definition config_empty_strings : Config.t :=
  Config.mk (Some true) (Some EmptyString) (Some (Num 8089)) None None
            (Some EmptyString) None.

Definition bonjour_all_ok : Bonjour.library :=
  {| Bonjour.on_import := Ret tt;
     Bonjour.on_new := Ret Bonjour.instance;
     Bonjour.on_publish := fun o => Ret {| Bonjour.options := o; Bonjour.stop := true |};
     Bonjour.on_stop := fun _ => Ret tt;
     Bonjour.on_unpublishAll := Ret tt;
     Bonjour.on_destroy := Ret tt |}.

Definition bonjour_new_throws (e : thrown) : Bonjour.library :=
  {| Bonjour.on_import := Ret tt;
     Bonjour.on_new := Throw e;
     Bonjour.on_publish := fun o => Ret {| Bonjour.options := o; Bonjour.stop := true |};
     Bonjour.on_stop := fun _ => Ret tt;
     Bonjour.on_unpublishAll := Ret tt;
     Bonjour.on_destroy := Ret tt |}.

Definition bonjour_teardown_throws (e : thrown) : Bonjour.library :=
  {| Bonjour.on_import := Ret tt;
     Bonjour.on_new := Ret Bonjour.instance;
     Bonjour.on_publish := fun o => Ret {| Bonjour.options := o; Bonjour.stop := true |};
     Bonjour.on_stop := fun _ => Throw e;
     Bonjour.on_unpublishAll := Throw e;
     Bonjour.on_destroy := Throw e |}.

Definition ciao_advertise_throws (e : thrown) : Ciao.library :=
  {| Ciao.on_import := Ret tt;
     Ciao.on_getResponder := Ret Ciao.the_responder;
     Ciao.on_createService := fun o => Ret {| Ciao.options := o |};
     Ciao.on_advertise := fun _ => Throw e;
     Ciao.on_end := fun _ => Ret tt;
     Ciao.on_shutdown := Ret tt |}.

Definition ciao_all_ok : Ciao.library :=
  {| Ciao.on_import := Ret tt;
     Ciao.on_getResponder := Ret Ciao.the_responder;
     Ciao.on_createService := fun o => Ret {| Ciao.options := o |};
     Ciao.on_advertise := fun _ => Ret tt;
     Ciao.on_end := fun _ => Ret tt;
     Ciao.on_shutdown := Ret tt |}.

Definition bonjour_publish_throws (e : thrown) : Bonjour.library :=
  {| Bonjour.on_import := Ret tt;
     Bonjour.on_new := Ret Bonjour.instance;
     Bonjour.on_publish := fun _ => Throw e;
     Bonjour.on_stop := fun _ => Ret tt;
     Bonjour.on_unpublishAll := Ret tt;
     Bonjour.on_destroy := Ret tt |}.

Definition bonjour_start : world Bonjour.Plugin Bonjour.call :=
  World Bonjour.fresh [] [].

Definition ciao_start : world Ciao.Plugin Ciao.call :=
  World Ciao.fresh [] [].

Definition published_service : Bonjour.Service :=
  {| Bonjour.options := buildOptions host_foo config_port (Num 8089);
     Bonjour.stop := true |}.

(** What converting a Symbol to a string throws. *)
Definition symbol_error : thrown :=
  ThrownError "Cannot convert a Symbol value to a string".

Definition earlier_instance : Bonjour.Instance :=
  {| Bonjour.instance_id := 1 |}.

Definition service_without_stop : Bonjour.Service :=
  {| Bonjour.options := buildOptions host_foo config_port (Num 8089);
     Bonjour.stop := false |}.

Definition cap_all_ok : Capability.t :=
  {| Capability.construct := None;
     Capability.advertise := fun _ => None;
     Capability.stop := fun _ => None;
     Capability.shutdown := None |}.

Definition cap_advertise_fails : Capability.t :=
  {| Capability.construct := None;
     Capability.advertise := fun _ => Some (ThrownError "boom");
     Capability.stop := fun _ => None;
     Capability.shutdown := None |}.

(** * Properties *)

(** ** Adapter-name extraction *)

Lemma append_nil (r : string) : (EmptyString ++ r)%string = r.
Proof. reflexivity. Qed.

Lemma append_cons (a : ascii) (p r : string) :
  (String a p ++ r)%string = String a (p ++ r).
Proof. reflexivity. Qed.

Lemma strip_prefix_app (p s : string) : strip_prefix p (p ++ s) = Some s.
Proof.
  induction p as [|a p IH]; simpl; [reflexivity|].
  rewrite bool_decide_eq_true_2 by reflexivity. exact IH.
Qed.

Lemma strip_prefix_Some (p s r : string) :
  strip_prefix p s = Some r → s = (p ++ r)%string.
Proof.
  revert s. induction p as [|a p IH]; simpl; intros s H.
  - injection H as ->. reflexivity.
  - destruct s as [|b s]; [discriminate|].
    case_bool_decide; [|discriminate]. subst b.
    rewrite append_cons. f_equal. auto.
Qed.

Lemma span_token_app (tok rest : string) :
  dot_free tok = true →
  span_token (tok ++ String dot rest) = (tok, String dot rest).
Proof.
  induction tok as [|c tok IH]; simpl; intros H.
  - reflexivity.
  - apply andb_true_iff in H as [Hc Ht].
    apply negb_true_iff in Hc. rewrite Hc, (IH Ht). reflexivity.
Qed.

Lemma span_token_spec (s tok rest : string) :
  span_token s = (tok, rest) →
  s = (tok ++ rest)%string ∧ dot_free tok = true.
Proof.
  revert tok rest. induction s as [|c s IH]; simpl; intros tok rest H.
  - inversion H; subst. split; reflexivity.
  - destruct (is_dot c) eqn:Hc.
    + inversion H; subst. split; reflexivity.
    + destruct (span_token s) as [t r] eqn:Hs. inversion H; subst.
      destruct (IH t rest eq_refl) as [-> Hd]. simpl. rewrite Hc, Hd.
      split; reflexivity.
Qed.

Lemma match_here_complete (tok post : string) :
  tok ≠ EmptyString → dot_free tok = true →
  match_here (adapter_prefix ++ tok ++ "." ++ post) = Some tok.
Proof.
  intros Hne Hd. unfold match_here.
  change "system.adapter." with adapter_prefix.
  rewrite strip_prefix_app.
  change ("." ++ post)%string with (String dot post).
  rewrite (span_token_app _ _ Hd).
  destruct tok; [congruence|]. reflexivity.
Qed.

Lemma match_here_sound (s tok : string) :
  match_here s = Some tok →
  ∃ post : string,
    s = (adapter_prefix ++ tok ++ "." ++ post)%string
    ∧ tok ≠ EmptyString ∧ dot_free tok = true.
Proof.
  unfold match_here. change "system.adapter." with adapter_prefix.
  destruct (strip_prefix adapter_prefix s) as [r|] eqn:Hp; [|discriminate].
  apply strip_prefix_Some in Hp. subst s.
  destruct (span_token r) as [t rest] eqn:Hs.
  apply span_token_spec in Hs as [-> Hd].
  destruct t as [|c t]; [discriminate|].
  destruct rest as [|d rest]; [discriminate|].
  destruct (is_dot d) eqn:Hdot; [|discriminate].
  intros H; inversion H; subst tok.
  unfold is_dot in Hdot. apply bool_decide_eq_true_1 in Hdot. subst d.
  exists rest. split; [reflexivity|]. split; [discriminate|exact Hd].
Qed.

Lemma regex_match_unfold (s : string) :
  regex_match s =
  match match_here s with
  | Some tok => Some tok
  | None => match s with
            | EmptyString => None
            | String _ s' => regex_match s'
            end
  end.
Proof. destruct s; reflexivity. Qed.

Lemma regex_match_sound (s tok : string) :
  regex_match s = Some tok →
  ∃ pre post : string,
    s = (pre ++ adapter_prefix ++ tok ++ "." ++ post)%string
    ∧ tok ≠ EmptyString ∧ dot_free tok = true.
Proof.
  induction s as [|c s IH]; rewrite regex_match_unfold.
  - destruct (match_here EmptyString) eqn:Hm; [|discriminate].
    intros H; inversion H; subst.
    apply match_here_sound in Hm as (post & ? & ? & ?).
    exists EmptyString, post. auto.
  - destruct (match_here (String c s)) eqn:Hm.
    + intros H; inversion H; subst.
      apply match_here_sound in Hm as (post & ? & ? & ?).
      exists EmptyString, post. auto.
    + intros H. destruct (IH H) as (pre & post & -> & ? & ?).
      exists (String c pre), post. auto.
Qed.

Lemma regex_match_None (pre suf : string) :
  regex_match (pre ++ suf) = None → match_here suf = None.
Proof.
  induction pre as [|c pre IH].
  - rewrite append_nil, regex_match_unfold.
    destruct (match_here suf); [discriminate|reflexivity].
  - rewrite append_cons, regex_match_unfold.
    destruct (match_here (String c (pre ++ suf))); [discriminate|]. exact IH.
Qed.

Lemma regex_match_unmatched (ns : string) :
  ¬ matches_pattern ns → regex_match ns = None.
Proof.
  intros Hn. destruct (regex_match ns) as [tok|] eqn:Hm; [|reflexivity].
  exfalso. apply Hn. apply regex_match_sound in Hm as (pre & post & ? & ? & ?).
  exists pre, tok, post. auto.
Qed.

Lemma regex_match_matched (ns : string) :
  matches_pattern ns → ∃ tok, regex_match ns = Some tok.
Proof.
  intros (pre & tok & post & -> & Hne & Hd).
  destruct (regex_match _) as [t|] eqn:Hm; [eauto|].
  apply regex_match_None in Hm. rewrite match_here_complete in Hm; congruence.
Qed.

Lemma regex_match_at_start (tok post : string) :
  tok ≠ EmptyString → dot_free tok = true →
  regex_match (adapter_prefix ++ tok ++ "." ++ post) = Some tok.
Proof.
  intros Hne Hd.
  rewrite regex_match_unfold, (match_here_complete tok post Hne Hd). reflexivity.
Qed.

(** C7. Adapter-name extraction is a total function of the namespace: a
    namespace [system.adapter.<name>.<instance>.plugins.mdns] whose [<name>]
    is a token (non-empty, without a dot) yields [<name>]; a namespace in
    which the pattern [system.adapter.<token>.] does not occur, and a
    missing namespace, yield [unknown]; a namespace in which it occurs
    yields a token; so [system.adapter.foo.0.plugins.mdns] yields [foo] and
    [garbage] yields [unknown]. *)
Theorem getAdapterName_spec (h : Host) :
  (∀ name inst : string,
      pluginNamespace h
      = Some (adapter_prefix ++ name ++ "." ++ inst ++ ".plugins.mdns")%string →
      name ≠ EmptyString → dot_free name = true →
      getAdapterName h = name)
  ∧ (∀ ns : string,
      pluginNamespace h = Some ns → ¬ matches_pattern ns →
      getAdapterName h = "unknown")
  ∧ (pluginNamespace h = None → getAdapterName h = "unknown")
  ∧ (∀ ns : string,
      pluginNamespace h = Some ns → matches_pattern ns →
      getAdapterName h ≠ EmptyString ∧ dot_free (getAdapterName h) = true)
  ∧ (pluginNamespace h = Some "system.adapter.foo.0.plugins.mdns" →
      getAdapterName h = "foo")
  ∧ (pluginNamespace h = Some "garbage" → getAdapterName h = "unknown").
Proof.
  unfold getAdapterName.
  split; [|split; [|split; [|split; [|split]]]].
  - intros name inst -> Hne Hd. simpl string_truthy. cbv iota.
    rewrite (regex_match_at_start name _ Hne Hd). reflexivity.
  - intros ns -> Hn.
    destruct (string_truthy ns); [|reflexivity].
    rewrite (regex_match_unmatched ns Hn). reflexivity.
  - intros ->. reflexivity.
  - intros ns -> Hm.
    assert (Ht : string_truthy ns = true).
    { destruct Hm as (pre & tok & post & -> & _ & _).
      destruct pre; reflexivity. }
    rewrite Ht.
    destruct (regex_match_matched ns Hm) as [tok Htok]. rewrite Htok.
    apply regex_match_sound in Htok as (_ & _ & _ & Hne & Hd).
    split; assumption.
  - intros ->. reflexivity.
  - intros ->. reflexivity.
Qed.

Lemma getAdapterName_spec_witness : getAdapterName host_foo = "foo".
Proof.
  apply (proj1 (getAdapterName_spec host_foo) "foo" "0");
    [reflexivity | discriminate | reflexivity].
Defined.

(** ** Port lookup *)

Lemma getPortFromConfig_Some (h : Host) (k : string) (n : number) :
  getPortFromConfig h k = Some n ↔
  ∃ (pkg : IoPackage) (nat_cfg : gmap string js_value) (v : js_value),
    parentIoPackage h = Some pkg ∧ native pkg = Some nat_cfg
    ∧ nat_cfg !! k = Some v ∧ typeof v = TNumber ∧ v = VNumber n.
Proof.
  unfold getPortFromConfig. split.
  - destruct (parentIoPackage h) as [pkg|]; [|discriminate].
    destruct (native pkg) as [nat_cfg|] eqn:Hn; [|discriminate].
    destruct (nat_cfg !! k) as [v|] eqn:Hk; [|discriminate].
    simpl. destruct v; simpl; try discriminate.
    intros H; injection H as ->.
    exists pkg, nat_cfg, (VNumber n). repeat split; assumption.
  - intros (pkg & nat_cfg & v & -> & -> & -> & _ & ->). reflexivity.
Qed.

Lemma truthy_Some {A : Type} (t : A → bool) (o : option A) :
  truthy t o = true ↔ ∃ a, o = Some a ∧ t a = true.
Proof.
  destruct o as [a|]; simpl; split.
  - intros H. exists a. split; [reflexivity|exact H].
  - intros (b & Hb & Ht). injection Hb as ->. exact Ht.
  - discriminate.
  - intros (b & Hb & _). discriminate.
Qed.

Lemma string_truthy_ne (s : string) : string_truthy s = true ↔ s ≠ EmptyString.
Proof. destruct s; simpl; split; congruence. Qed.

(** With nothing to resolve a port from, [port] stays falsy. *)
Lemma resolvePort_falsy (h : Host) (cfg : Config.t) :
  truthy number_truthy (Config.port cfg) = false →
  (∀ k, Config.portKey cfg = Some k → getPortFromConfig h k = None) →
  truthy number_truthy (Config.defaultPort cfg) = false →
  truthy number_truthy (resolvePort h cfg) = false.
Proof.
  intros Hp Hk Hd. unfold resolvePort. rewrite Hd, andb_false_r, Hp. simpl.
  destruct (Config.portKey cfg) as [k|]; simpl; [|exact Hp].
  destruct (string_truthy k); [|exact Hp].
  rewrite (Hk k eq_refl). reflexivity.
Qed.

(** ** The publish step *)

(** Unfold the monad, then split on each answer of the library. *)
Ltac unfold_effects :=
  unfold run, try_catch, bind, invoke, modify_this, get_this, log_at,
    message_of, ret, throw in *;
  cbn -[resolveServiceName resolveServiceType buildTxt buildOptions
        msg_published msg_failed msg_no_port msg_disabled msg_destroyed] in *.

Ltac case_reply :=
  match goal with
  | |- context [match ?e with ThrownUndefined => _ | _ => _ end] => destruct e
  | H : context [match ?e with ThrownUndefined => _ | _ => _ end] |- _ => destruct e
  | |- context [match ?r with Ret _ => _ | Throw _ => _ end] => destruct r eqn:?
  | H : context [match ?r with Ret _ => _ | Throw _ => _ end] |- _ => destruct r eqn:?
  end;
  cbn -[resolveServiceName resolveServiceType buildTxt buildOptions
        msg_published msg_failed msg_no_port msg_disabled msg_destroyed] in *.

(** [init] is its three exits: disabled, no port, publish. *)
Lemma Bonjour_init_unfold (h : Host) (lib : Bonjour.library) (cfg : Config.t) :
  Bonjour.init h lib cfg
  = if negb (truthy id (Config.enabled cfg)) then log_at Info msg_disabled
    else match resolvePort h cfg with
         | None => log_at Warn msg_no_port
         | Some port =>
             if negb (number_truthy port) then log_at Warn msg_no_port
             else Bonjour_publish_step h lib cfg port
         end.
Proof. reflexivity. Qed.

Lemma Ciao_init_unfold (h : Host) (lib : Ciao.library) (cfg : Config.t) :
  Ciao.init h lib cfg
  = if negb (truthy id (Config.enabled cfg)) then log_at Info msg_disabled
    else match resolvePort h cfg with
         | None => log_at Warn msg_no_port
         | Some port =>
             if negb (number_truthy port) then log_at Warn msg_no_port
             else Ciao_publish_step h lib cfg port
         end.
Proof. reflexivity. Qed.

Ltac unfold_init :=
  rewrite ?Bonjour_init_unfold, ?Ciao_init_unfold;
  unfold Bonjour_publish_step, Ciao_publish_step.

Ltac invert_membership :=
  repeat match goal with
         | H : _ ∈ _ :: _ |- _ => apply elem_of_cons in H as [H|H]
         | H : _ ∈ [] |- _ => inversion H
         | H : ?c = _ |- _ => is_var c; subst c
         end.

(** Every publish call of [init] carries the resolved parameters. *)
Lemma Bonjour_init_publish_options (h : Host) (lib : Bonjour.library)
      (cfg : Config.t) (p : Bonjour.Plugin) (o : Options.t) :
  Bonjour.Publish o ∈ calls (snd (run (Bonjour.init h lib cfg) p)) →
  ∃ port : number,
    resolvePort h cfg = Some port ∧ number_truthy port = true
    ∧ o = buildOptions h cfg port.
Proof.
  unfold_init.
  destruct (negb (truthy id (Config.enabled cfg))).
  { cbn. intros H. inversion H. }
  destruct (resolvePort h cfg) as [port|].
  2:{ cbn. intros H. inversion H. }
  destruct (number_truthy port) eqn:Ht; cbn [negb].
  2:{ cbn. intros H. inversion H. }
  intros H. exists port. split; [reflexivity|]. split; [exact Ht|].
  unfold_effects. repeat case_reply.
  all: repeat match goal with
         | H : _ ∈ _ :: _ |- _ => apply elem_of_cons in H as [H|H]
         | H : _ ∈ [] |- _ => inversion H
         | H : Bonjour.Publish _ = _ |- _ => inversion H; clear H
         end.
  all: reflexivity.
Qed.

Lemma Ciao_init_publish_options (h : Host) (lib : Ciao.library)
      (cfg : Config.t) (p : Ciao.Plugin) (o : Options.t) :
  Ciao.CreateService o ∈ calls (snd (run (Ciao.init h lib cfg) p)) →
  ∃ port : number,
    resolvePort h cfg = Some port ∧ number_truthy port = true
    ∧ o = buildOptions h cfg port.
Proof.
  unfold_init.
  destruct (negb (truthy id (Config.enabled cfg))).
  { cbn. intros H. inversion H. }
  destruct (resolvePort h cfg) as [port|].
  2:{ cbn. intros H. inversion H. }
  destruct (number_truthy port) eqn:Ht; cbn [negb].
  2:{ cbn. intros H. inversion H. }
  intros H. exists port. split; [reflexivity|]. split; [exact Ht|].
  unfold_effects. repeat case_reply.
  all: repeat match goal with
         | H : _ ∈ _ :: _ |- _ => apply elem_of_cons in H as [H|H]
         | H : _ ∈ [] |- _ => inversion H
         | H : Ciao.CreateService _ = _ |- _ => inversion H; clear H
         end.
  all: reflexivity.
Qed.

(** With the plugin enabled, a port resolved and the responder constructed,
    the publish call is made, whatever it answers. *)
Lemma Bonjour_init_publishes (h : Host) (lib : Bonjour.library) (cfg : Config.t)
      (p : Bonjour.Plugin) (port : number) (b : Bonjour.Instance) :
  Config.enabled cfg = Some true →
  resolvePort h cfg = Some port → number_truthy port = true →
  Bonjour.on_import lib = Ret tt → Bonjour.on_new lib = Ret b →
  calls (snd (run (Bonjour.init h lib cfg) p))
  = [Bonjour.Import; Bonjour.New; Bonjour.Publish (buildOptions h cfg port)].
Proof.
  intros He Hp Ht Hi Hn. unfold_init. rewrite He, Hp, Ht. cbn [truthy id negb].
  unfold_effects. rewrite Hi, Hn. cbn.
  repeat case_reply; reflexivity.
Qed.

Lemma Ciao_init_publishes (h : Host) (lib : Ciao.library) (cfg : Config.t)
      (p : Ciao.Plugin) (port : number) (r : Ciao.Responder) :
  Config.enabled cfg = Some true →
  resolvePort h cfg = Some port → number_truthy port = true →
  Ciao.on_import lib = Ret tt → Ciao.on_getResponder lib = Ret r →
  ∃ rest,
    calls (snd (run (Ciao.init h lib cfg) p))
    = ([Ciao.Import; Ciao.GetResponder; Ciao.CreateService (buildOptions h cfg port)]
         ++ rest)%list.
Proof.
  intros He Hp Ht Hi Hn. unfold_init. rewrite He, Hp, Ht. cbn [truthy id negb].
  unfold_effects. rewrite Hi, Hn. cbn.
  repeat case_reply; eexists; reflexivity.
Qed.

(** ** Port resolution *)

(** C1, as amended. The port is resolved in a strict, short-circuiting
    order: [config.port] when truthy; otherwise, when [config.portKey] is
    a non-empty string, the value stored under that key in the parent's
    native configuration, accepted when its runtime type is numeric and it
    is truthy (neither [0] nor [NaN]); otherwise [config.defaultPort] when
    truthy.  The native lookup yields a number exactly when the stored
    value's runtime type is numeric.  With port 8089 and native [{x: 9999}]
    the port is 8089; with no port, key [x] and native [{x: 9999}] it is
    9999; with no port, no key and default 7000 it is 7000.  The port of
    every publish call is the port so resolved, and it is truthy. *)
Theorem resolvePort_priority (h : Host) (cfg : Config.t) :
  (∀ p, Config.port cfg = Some p → number_truthy p = true →
        resolvePort h cfg = Some p)
  ∧ (truthy number_truthy (Config.port cfg) = false →
     ∀ k n, Config.portKey cfg = Some k → k ≠ EmptyString →
            getPortFromConfig h k = Some n → number_truthy n = true →
            resolvePort h cfg = Some n)
  ∧ (truthy number_truthy (Config.port cfg) = false →
     (∀ k n, Config.portKey cfg = Some k → k ≠ EmptyString →
             getPortFromConfig h k = Some n → number_truthy n = false) →
     ∀ d, Config.defaultPort cfg = Some d → number_truthy d = true →
          resolvePort h cfg = Some d)
  ∧ (∀ k n, getPortFromConfig h k = Some n ↔
            ∃ (pkg : IoPackage) (nat_cfg : gmap string js_value) (v : js_value),
              parentIoPackage h = Some pkg ∧ native pkg = Some nat_cfg
              ∧ nat_cfg !! k = Some v ∧ typeof v = TNumber ∧ v = VNumber n)
  ∧ resolvePort (host_native {[ "x" := VNumber (Num 9999) ]}) config_port_and_key
    = Some (Num 8089)
  ∧ resolvePort (host_native {[ "x" := VNumber (Num 9999) ]}) config_key_only
    = Some (Num 9999)
  ∧ resolvePort (host_native ∅) config_default_only = Some (Num 7000)
  ∧ (∀ lib p o, Bonjour.Publish o ∈ calls (snd (run (Bonjour.init h lib cfg) p)) →
                resolvePort h cfg = Some (Options.port o)
                ∧ number_truthy (Options.port o) = true)
  ∧ (∀ lib p o, Ciao.CreateService o ∈ calls (snd (run (Ciao.init h lib cfg) p)) →
                resolvePort h cfg = Some (Options.port o)
                ∧ number_truthy (Options.port o) = true).
Proof.
  split; [|split; [|split; [|split; [|split; [|split; [|split; [|split]]]]]]].
  - intros p Hp Ht. unfold resolvePort. rewrite Hp. cbn. rewrite Ht. cbn.
    rewrite Ht. reflexivity.
  - intros Hp k n Hk Hne Hg Ht. unfold resolvePort. rewrite Hp, Hk. cbn.
    apply string_truthy_ne in Hne. rewrite Hne, Hg. cbn. rewrite Ht. reflexivity.
  - intros Hp Hnat d Hd Ht. unfold resolvePort. rewrite Hp, Hd. cbn. rewrite Ht.
    destruct (Config.portKey cfg) as [k|] eqn:Hk; cbn.
    + destruct (string_truthy k) eqn:Hkt.
      * apply string_truthy_ne in Hkt.
        destruct (getPortFromConfig h k) as [n|] eqn:Hg; cbn.
        -- rewrite (Hnat k n eq_refl Hkt Hg). reflexivity.
        -- reflexivity.
      * rewrite Hp. reflexivity.
    + rewrite Hp. reflexivity.
  - intros k n. apply getPortFromConfig_Some.
  - reflexivity.
  - reflexivity.
  - reflexivity.
  - intros lib p o H.
    apply Bonjour_init_publish_options in H as (port & Hp & Ht & ->).
    split; assumption.
  - intros lib p o H.
    apply Ciao_init_publish_options in H as (port & Hp & Ht & ->).
    split; assumption.
Qed.

Lemma resolvePort_priority_witness :
  resolvePort (host_native {[ "x" := VNumber (Num 9999) ]}) config_key_only
  = Some (Num 9999).
Proof.
  apply (proj1 (proj2 (resolvePort_priority
                         (host_native {[ "x" := VNumber (Num 9999) ]})
                         config_key_only))
           eq_refl "x" (Num 9999));
    [reflexivity | discriminate | reflexivity | reflexivity].
Defined.

(** C1, as stated, fails: with no [port], [portKey] set to [x] and native
    [{x: 0}], the stored value has the numeric runtime type, yet it is not
    the port that is used; [defaultPort] is. *)
Lemma resolvePort_numeric_zero_not_accepted :
  Config.port config_key_and_default = None
  ∧ Config.portKey config_key_and_default = Some "x"
  ∧ typeof (VNumber (Num 0)) = TNumber
  ∧ getPortFromConfig (host_native {[ "x" := VNumber (Num 0) ]}) "x" = Some (Num 0)
  ∧ resolvePort (host_native {[ "x" := VNumber (Num 0) ]}) config_key_and_default
    ≠ Some (Num 0)
  ∧ resolvePort (host_native {[ "x" := VNumber (Num 0) ]}) config_key_and_default
    = Some (Num 7000)
  ∧ calls (snd (run (Bonjour.init (host_native {[ "x" := VNumber (Num 0) ]})
                                  bonjour_all_ok config_key_and_default)
                    Bonjour.fresh))
    = [Bonjour.Import; Bonjour.New;
       Bonjour.Publish (buildOptions (host_native {[ "x" := VNumber (Num 0) ]})
                                     config_key_and_default (Num 7000))].
Proof. repeat split; try reflexivity. discriminate. Qed.

(** ** Disabled plugin, missing port *)

(** C9. With [enabled] false or absent, [init] of either binding writes
    one informational line and does nothing else: it returns normally, the
    plugin's handles are as they were and no library call is made. *)
Theorem init_disabled (h : Host) (cfg : Config.t) :
  Config.enabled cfg = None ∨ Config.enabled cfg = Some false →
  (∀ lib w, Bonjour.init h lib cfg w
            = (Ret tt, World (this w) (log w ++ [LogEntry Info msg_disabled]) (calls w)))
  ∧ (∀ lib w, Ciao.init h lib cfg w
              = (Ret tt, World (this w) (log w ++ [LogEntry Info msg_disabled]) (calls w)))
  ∧ (∀ lib, run (Bonjour.init h lib cfg) Bonjour.fresh
            = (Ret tt, World Bonjour.fresh [LogEntry Info msg_disabled] []))
  ∧ (∀ lib, run (Ciao.init h lib cfg) Ciao.fresh
            = (Ret tt, World Ciao.fresh [LogEntry Info msg_disabled] [])).
Proof.
  intros He.
  assert (Hf : negb (truthy id (Config.enabled cfg)) = true)
    by (destruct He as [-> | ->]; reflexivity).
  repeat split; intros; unfold run; unfold_init; rewrite Hf; reflexivity.
Qed.

Lemma init_disabled_witness :
  run (Bonjour.init host_foo bonjour_all_ok Config.empty) Bonjour.fresh
  = (Ret tt, World Bonjour.fresh [LogEntry Info msg_disabled] []).
Proof.
  apply (proj1 (proj2 (proj2 (init_disabled host_foo Config.empty
                                (or_introl eq_refl))))).
Defined.

(** C3. With [enabled] true and no port to resolve ([config.port] falsy, no
    numeric value under [portKey], [defaultPort] falsy or absent), [init]
    of either binding writes exactly one warning and nothing else: it
    returns normally and makes no library call, so that no responder or
    service handle is created. *)
Theorem init_no_port (h : Host) (cfg : Config.t) :
  Config.enabled cfg = Some true →
  truthy number_truthy (Config.port cfg) = false →
  (∀ k, Config.portKey cfg = Some k → getPortFromConfig h k = None) →
  truthy number_truthy (Config.defaultPort cfg) = false →
  (∀ lib w, Bonjour.init h lib cfg w
            = (Ret tt, World (this w) (log w ++ [LogEntry Warn msg_no_port]) (calls w)))
  ∧ (∀ lib w, Ciao.init h lib cfg w
              = (Ret tt, World (this w) (log w ++ [LogEntry Warn msg_no_port]) (calls w)))
  ∧ (∀ lib, run (Bonjour.init h lib cfg) Bonjour.fresh
            = (Ret tt, World Bonjour.fresh [LogEntry Warn msg_no_port] []))
  ∧ (∀ lib, run (Ciao.init h lib cfg) Ciao.fresh
            = (Ret tt, World Ciao.fresh [LogEntry Warn msg_no_port] [])).
Proof.
  intros He Hp Hk Hd.
  pose proof (resolvePort_falsy h cfg Hp Hk Hd) as Hf.
  assert (Hb : ∀ lib w,
             Bonjour.init h lib cfg w
             = (Ret tt, World (this w) (log w ++ [LogEntry Warn msg_no_port]) (calls w))).
  { intros lib w. unfold_init. rewrite He. cbn [truthy id negb].
    destruct (resolvePort h cfg) as [port|]; [|reflexivity].
    cbn in Hf. rewrite Hf. reflexivity. }
  assert (Hc : ∀ lib w,
             Ciao.init h lib cfg w
             = (Ret tt, World (this w) (log w ++ [LogEntry Warn msg_no_port]) (calls w))).
  { intros lib w. unfold_init. rewrite He. cbn [truthy id negb].
    destruct (resolvePort h cfg) as [port|]; [|reflexivity].
    cbn in Hf. rewrite Hf. reflexivity. }
  repeat split; intros; unfold run; rewrite ?Hb, ?Hc; reflexivity.
Qed.

Lemma init_no_port_witness :
  run (Bonjour.init host_foo bonjour_all_ok config_enabled_only) Bonjour.fresh
  = (Ret tt, World Bonjour.fresh [LogEntry Warn msg_no_port] []).
Proof.
  refine (proj1 (proj2 (proj2 (init_no_port host_foo config_enabled_only
                                 eq_refl eq_refl _ eq_refl))) bonjour_all_ok).
  intros k Hk. discriminate Hk.
Defined.

(** ** TXT records *)

Lemma buildTxt_lookup (h : Host) (cfg : Config.t) (k : string) :
  buildTxt h cfg !! k
  = match default ∅ (Config.txt cfg) !! k with
    | Some v => Some v
    | None =>
        ({[ "adapter" := getAdapterName h; "hostname" := hostname h ]}
           : gmap string string) !! k
    end.
Proof.
  unfold buildTxt, spread. rewrite lookup_union.
  destruct (default ∅ (Config.txt cfg) !! k) as [v|] eqn:Hk.
  - rewrite union_Some_l. reflexivity.
  - rewrite (left_id_L None _).
    rewrite !lookup_insert, lookup_singleton, lookup_empty.
    repeat case_decide; subst; try reflexivity; discriminate.
Qed.

(** C6. The TXT record set handed to the publish call is the base
    [{adapter: adapterName, hostname: hostname}] overlaid with
    [config.txt]: every entry of [config.txt] is in it, also under a base
    key; a base key that [config.txt] does not hold keeps its base value;
    no other key is in it; and without [config.txt] it is exactly the two
    base entries. *)
Theorem buildTxt_spec (h : Host) (cfg : Config.t) :
  (∀ t k v, Config.txt cfg = Some t → t !! k = Some v →
            buildTxt h cfg !! k = Some v)
  ∧ (default ∅ (Config.txt cfg) !! "adapter" = None →
     buildTxt h cfg !! "adapter" = Some (getAdapterName h))
  ∧ (default ∅ (Config.txt cfg) !! "hostname" = None →
     buildTxt h cfg !! "hostname" = Some (hostname h))
  ∧ (∀ k, k ≠ "adapter" → k ≠ "hostname" →
          buildTxt h cfg !! k = default ∅ (Config.txt cfg) !! k)
  ∧ (Config.txt cfg = None →
     buildTxt h cfg = {[ "adapter" := getAdapterName h; "hostname" := hostname h ]})
  ∧ (∀ lib p o, Bonjour.Publish o ∈ calls (snd (run (Bonjour.init h lib cfg) p)) →
                Options.txt o = buildTxt h cfg)
  ∧ (∀ lib p o, Ciao.CreateService o ∈ calls (snd (run (Ciao.init h lib cfg) p)) →
                Options.txt o = buildTxt h cfg).
Proof.
  split; [|split; [|split; [|split; [|split; [|split]]]]].
  - intros t k v Ht Hk. rewrite buildTxt_lookup, Ht. cbn. rewrite Hk. reflexivity.
  - intros Hk. rewrite buildTxt_lookup, Hk. apply lookup_insert_eq.
  - intros Hk. rewrite buildTxt_lookup, Hk.
    rewrite lookup_insert_ne by discriminate. apply lookup_singleton_eq.
  - intros k Ha Hh. rewrite buildTxt_lookup.
    destruct (default ∅ (Config.txt cfg) !! k); [reflexivity|].
    rewrite lookup_insert_ne by congruence.
    apply lookup_singleton_ne. congruence.
  - intros Ht. apply map_eq. intros k. rewrite buildTxt_lookup, Ht. cbn.
    rewrite lookup_empty. reflexivity.
  - intros lib p o H.
    apply Bonjour_init_publish_options in H as (port & _ & _ & ->). reflexivity.
  - intros lib p o H.
    apply Ciao_init_publish_options in H as (port & _ & _ & ->). reflexivity.
Qed.

Lemma buildTxt_spec_witness :
  buildTxt host_foo config_txt_override !! "adapter" = Some "custom"
  ∧ buildTxt host_foo config_txt_override !! "hostname" = Some "host1".
Proof.
  split.
  - apply (proj1 (buildTxt_spec host_foo config_txt_override)
             {[ "adapter" := "custom"; "path" := "/audio" ]} "adapter" "custom");
      reflexivity.
  - apply (proj1 (proj2 (proj2 (buildTxt_spec host_foo config_txt_override))));
      reflexivity.
Defined.

(** ** Service type and service name *)

Lemma or_else_spec (o : option string) (d : string) :
  (∀ s, o = Some s → s ≠ EmptyString → or_else o d = s)
  ∧ (o = None ∨ o = Some EmptyString → or_else o d = d).
Proof.
  split.
  - intros s -> Hs. destruct s; [congruence|reflexivity].
  - intros [-> | ->]; reflexivity.
Qed.

(** C8, as amended. The advertised service type is [config.serviceType]
    when it is present and not the empty string, and
    [iobroker-<adapterName>] when it is absent or empty; the advertised
    service name is [config.serviceName] when it is present and not the
    empty string, and [ioBroker <adapterName> (<hostname>)] when it is
    absent or empty.  These are the type and the name of the publish
    call. *)
Theorem service_type_and_name (h : Host) (cfg : Config.t) :
  (∀ s, Config.serviceType cfg = Some s → s ≠ EmptyString →
        resolveServiceType h cfg = s)
  ∧ (Config.serviceType cfg = None ∨ Config.serviceType cfg = Some EmptyString →
     resolveServiceType h cfg = ("iobroker-" ++ getAdapterName h)%string)
  ∧ (∀ s, Config.serviceName cfg = Some s → s ≠ EmptyString →
          resolveServiceName h cfg = s)
  ∧ (Config.serviceName cfg = None ∨ Config.serviceName cfg = Some EmptyString →
     resolveServiceName h cfg
     = ("ioBroker " ++ getAdapterName h ++ " (" ++ hostname h ++ ")")%string)
  ∧ (∀ lib p o, Bonjour.Publish o ∈ calls (snd (run (Bonjour.init h lib cfg) p)) →
                Options.type o = resolveServiceType h cfg
                ∧ Options.name o = resolveServiceName h cfg)
  ∧ (∀ lib p o, Ciao.CreateService o ∈ calls (snd (run (Ciao.init h lib cfg) p)) →
                Options.type o = resolveServiceType h cfg
                ∧ Options.name o = resolveServiceName h cfg).
Proof.
  unfold resolveServiceType, resolveServiceName.
  split; [|split; [|split; [|split; [|split]]]].
  - apply or_else_spec.
  - apply or_else_spec.
  - apply or_else_spec.
  - apply or_else_spec.
  - intros lib p o H.
    apply Bonjour_init_publish_options in H as (port & _ & _ & ->).
    split; reflexivity.
  - intros lib p o H.
    apply Ciao_init_publish_options in H as (port & _ & _ & ->).
    split; reflexivity.
Qed.

Lemma service_type_and_name_witness :
  resolveServiceType host_foo config_named = "iobroker-ai"
  ∧ resolveServiceName host_foo config_enabled_only = "ioBroker foo (host1)".
Proof.
  split.
  - apply (proj1 (service_type_and_name host_foo config_named) "iobroker-ai");
      [reflexivity | discriminate].
  - apply (proj1 (proj2 (proj2 (proj2
             (service_type_and_name host_foo config_enabled_only))))).
    left. reflexivity.
Defined.

(** C8, as stated, fails: a service type and a service name that are
    present but empty are not advertised; the defaults are. *)
Lemma present_but_empty_falls_back :
  Config.serviceType config_empty_strings = Some EmptyString
  ∧ resolveServiceType host_foo config_empty_strings ≠ EmptyString
  ∧ resolveServiceType host_foo config_empty_strings = "iobroker-foo"
  ∧ Config.serviceName config_empty_strings = Some EmptyString
  ∧ resolveServiceName host_foo config_empty_strings ≠ EmptyString
  ∧ resolveServiceName host_foo config_empty_strings = "ioBroker foo (host1)".
Proof. repeat split; try reflexivity; discriminate. Qed.

(** ** Failures of the publish step *)

(** A thrown value whose [message] can be read is absorbed: [init]
    returns normally and the only line written is the error line that
    carries the message. *)
Lemma Bonjour_init_absorbs (h : Host) (lib : Bonjour.library) (cfg : Config.t)
      (port : number) (e : thrown) (text : string)
      (w : world Bonjour.Plugin Bonjour.call) :
  Config.enabled cfg = Some true →
  resolvePort h cfg = Some port → number_truthy port = true →
  Bonjour_fails lib (buildOptions h cfg port) e → readable_message e = Some text →
  fst (Bonjour.init h lib cfg w) = Ret tt
  ∧ log (snd (Bonjour.init h lib cfg w))
    = (log w ++ [LogEntry Error (msg_failed text)])%list
  ∧ Bonjour.service (this (snd (Bonjour.init h lib cfg w))) = Bonjour.service (this w).
Proof.
  intros He Hp Ht Hf Hn. unfold_init. rewrite He, Hp, Ht. cbn [truthy id negb].
  destruct Hf as [Hi | Hi Hb | b Hi Hb Hs]; unfold_effects;
    rewrite ?Hi, ?Hb, ?Hs; cbn; destruct e; try discriminate;
    injection Hn as <-; cbn; auto.
Qed.

Lemma Ciao_init_absorbs (h : Host) (lib : Ciao.library) (cfg : Config.t)
      (port : number) (e : thrown) (text : string)
      (w : world Ciao.Plugin Ciao.call) :
  Config.enabled cfg = Some true →
  resolvePort h cfg = Some port → number_truthy port = true →
  Ciao_fails lib (buildOptions h cfg port) e → readable_message e = Some text →
  fst (Ciao.init h lib cfg w) = Ret tt
  ∧ log (snd (Ciao.init h lib cfg w))
    = (log w ++ [LogEntry Error (msg_failed text)])%list.
Proof.
  intros He Hp Ht Hf Hn. unfold_init. rewrite He, Hp, Ht. cbn [truthy id negb].
  destruct Hf as [Hi | Hi Hb | r Hi Hb Hs | r s Hi Hb Hs Ha]; unfold_effects;
    rewrite ?Hi, ?Hb, ?Hs; cbn; rewrite ?Ha; cbn;
    destruct e; try discriminate; injection Hn as <-; cbn; auto.
Qed.

(** C2 at the failing input. When the value thrown while the responder is
    constructed (bonjour-service) or while the advertisement starts (ciao)
    is [undefined], reading [err.message] in the handler raises a
    [TypeError] that leaves [init]; no error line is written. *)
Theorem init_rethrows_on_undefined :
  run (Bonjour.init host_foo (bonjour_new_throws ThrownUndefined) config_port)
      Bonjour.fresh
  = (Throw (ThrownError "Cannot read properties of undefined (reading 'message')"),
     World Bonjour.fresh [] [Bonjour.Import; Bonjour.New])
  ∧ fst (run (Ciao.init host_foo (ciao_advertise_throws ThrownUndefined) config_port)
             Ciao.fresh)
    = Throw (ThrownError "Cannot read properties of undefined (reading 'message')")
  ∧ log (snd (run (Ciao.init host_foo (ciao_advertise_throws ThrownUndefined) config_port)
                  Ciao.fresh))
    = [].
Proof. repeat split; reflexivity. Qed.

(** ** Teardown *)

Lemma Bonjour_destroy_result (lib : Bonjour.library) (w : world Bonjour.Plugin Bonjour.call) :
  fst (Bonjour.destroy lib w) = Ret true
  ∧ this (snd (Bonjour.destroy lib w)) = Bonjour.fresh
  ∧ log (snd (Bonjour.destroy lib w)) = (log w ++ [LogEntry Debug msg_destroyed])%list.
Proof.
  destruct w as [[b s] l c]. unfold Bonjour.destroy. unfold_effects.
  destruct s as [s|]; destruct b as [b|]; cbn;
    try destruct (Bonjour.stop s); cbn;
    try destruct (Bonjour.on_stop lib s); cbn;
    try destruct (Bonjour.on_unpublishAll lib); cbn;
    try destruct (Bonjour.on_destroy lib); cbn; auto.
Qed.

Lemma Ciao_destroy_result (lib : Ciao.library) (w : world Ciao.Plugin Ciao.call) :
  fst (Ciao.destroy lib w) = Ret true
  ∧ this (snd (Ciao.destroy lib w)) = Ciao.fresh
  ∧ log (snd (Ciao.destroy lib w)) = (log w ++ [LogEntry Debug msg_destroyed])%list.
Proof.
  destruct w as [[r s] l c]. unfold Ciao.destroy. unfold_effects.
  destruct s as [s|]; destruct r as [r|]; cbn;
    try destruct (Ciao.on_end lib s); cbn;
    try destruct (Ciao.on_shutdown lib); cbn; auto.
Qed.

(** Without handles, teardown calls nothing. *)
Lemma Bonjour_destroy_fresh (lib : Bonjour.library) (w : world Bonjour.Plugin Bonjour.call) :
  this w = Bonjour.fresh →
  Bonjour.destroy lib w
  = (Ret true, World Bonjour.fresh (log w ++ [LogEntry Debug msg_destroyed]) (calls w)).
Proof. destruct w as [p l c]. cbn. intros ->. reflexivity. Qed.

Lemma Ciao_destroy_fresh (lib : Ciao.library) (w : world Ciao.Plugin Ciao.call) :
  this w = Ciao.fresh →
  Ciao.destroy lib w
  = (Ret true, World Ciao.fresh (log w ++ [LogEntry Debug msg_destroyed]) (calls w)).
Proof. destruct w as [p l c]. cbn. intros ->. reflexivity. Qed.

(** C4. [destroy] of either binding returns [true] and does not throw, in
    every state of the plugin and whatever the library answers: after a
    publish, when run twice in succession (the second run finds no handle
    and calls nothing), and when [init] never ran. *)
Theorem destroy_always_succeeds :
  (∀ lib w, fst (Bonjour.destroy lib w) = Ret true)
  ∧ (∀ lib w, fst (Ciao.destroy lib w) = Ret true)
  ∧ (∀ lib1 lib2 w,
        fst ((exec Bonjour.destroy lib1 then Bonjour.destroy lib2) w) = Ret true
        ∧ calls (snd ((exec Bonjour.destroy lib1 then Bonjour.destroy lib2) w))
          = calls (snd (Bonjour.destroy lib1 w)))
  ∧ (∀ lib1 lib2 w,
        fst ((exec Ciao.destroy lib1 then Ciao.destroy lib2) w) = Ret true
        ∧ calls (snd ((exec Ciao.destroy lib1 then Ciao.destroy lib2) w))
          = calls (snd (Ciao.destroy lib1 w)))
  ∧ (∀ h lib1 lib2 cfg p,
        fst (run (Bonjour.init h lib1 cfg) p) = Ret tt →
        fst (run (exec Bonjour.init h lib1 cfg then Bonjour.destroy lib2) p) = Ret true)
  ∧ (∀ h lib1 lib2 cfg p,
        fst (run (Ciao.init h lib1 cfg) p) = Ret tt →
        fst (run (exec Ciao.init h lib1 cfg then Ciao.destroy lib2) p) = Ret true)
  ∧ (∀ lib, run (Bonjour.destroy lib) Bonjour.fresh
            = (Ret true, World Bonjour.fresh [LogEntry Debug msg_destroyed] []))
  ∧ (∀ lib, run (Ciao.destroy lib) Ciao.fresh
            = (Ret true, World Ciao.fresh [LogEntry Debug msg_destroyed] [])).
Proof.
  split; [|split; [|split; [|split; [|split; [|split; [|split]]]]]].
  - intros lib w. apply Bonjour_destroy_result.
  - intros lib w. apply Ciao_destroy_result.
  - intros lib1 lib2 w. unfold bind.
    destruct (Bonjour_destroy_result lib1 w) as (Hr & Ht & _).
    destruct (Bonjour.destroy lib1 w) as [r w1]. cbn in Hr, Ht. subst r.
    rewrite (Bonjour_destroy_fresh lib2 w1 Ht). split; reflexivity.
  - intros lib1 lib2 w. unfold bind.
    destruct (Ciao_destroy_result lib1 w) as (Hr & Ht & _).
    destruct (Ciao.destroy lib1 w) as [r w1]. cbn in Hr, Ht. subst r.
    rewrite (Ciao_destroy_fresh lib2 w1 Ht). split; reflexivity.
  - intros h lib1 lib2 cfg p Hi. unfold run, bind in *.
    destruct (Bonjour.init h lib1 cfg _) as [r w1]. cbn in Hi. subst r.
    apply Bonjour_destroy_result.
  - intros h lib1 lib2 cfg p Hi. unfold run, bind in *.
    destruct (Ciao.init h lib1 cfg _) as [r w1]. cbn in Hi. subst r.
    apply Ciao_destroy_result.
  - intros lib. reflexivity.
  - intros lib. reflexivity.
Qed.

Lemma destroy_always_succeeds_witness :
  fst (run (exec Bonjour.init host_foo bonjour_all_ok config_port then
            Bonjour.destroy (bonjour_teardown_throws ThrownUndefined))
           Bonjour.fresh)
  = Ret true.
Proof.
  apply (proj1 (proj2 (proj2 (proj2 (proj2 destroy_always_succeeds))))).
  reflexivity.
Defined.



(** ** The two bindings compared *)

(** C10, as stated, fails: when the advertise request throws, the ciao
    binding is left holding the service handle that [createService] gave
    it and the bonjour-service binding holds none, so the teardown that
    follows stops a service in one binding and not in the other. *)
Lemma bindings_differ_when_advertise_fails :
  Capability.service_held
    (Capability.held
       (Bonjour_observe
          (run (Bonjour.init host_foo (Bonjour_bind cap_advertise_fails) config_port)
               Bonjour.fresh)))
  = None
  ∧ Capability.service_held
      (Capability.held
         (Ciao_observe
            (run (Ciao.init host_foo (Ciao_bind cap_advertise_fails) config_port)
                 Ciao.fresh)))
    = Some (buildOptions host_foo config_port (Num 8089))
  ∧ Capability.requests
      (Bonjour_observe
         (run (exec Bonjour.init host_foo (Bonjour_bind cap_advertise_fails) config_port
               then Bonjour.destroy (Bonjour_bind cap_advertise_fails))
              Bonjour.fresh))
    = [Capability.Construct;
       Capability.Advertise (buildOptions host_foo config_port (Num 8089));
       Capability.Shutdown]
  ∧ Capability.requests
      (Ciao_observe
         (run (exec Ciao.init host_foo (Ciao_bind cap_advertise_fails) config_port
               then Ciao.destroy (Ciao_bind cap_advertise_fails))
              Ciao.fresh))
    = [Capability.Construct;
       Capability.Advertise (buildOptions host_foo config_port (Num 8089));
       Capability.StopService (buildOptions host_foo config_port (Num 8089));
       Capability.Shutdown]
  ∧ Bonjour_observe
      (run (Bonjour.init host_foo (Bonjour_bind cap_advertise_fails) config_port)
           Bonjour.fresh)
    ≠ Ciao_observe
        (run (Ciao.init host_foo (Ciao_bind cap_advertise_fails) config_port)
             Ciao.fresh).
Proof.
  split; [reflexivity|]. split; [reflexivity|].
  split; [reflexivity|]. split; [reflexivity|].
  intros H.
  apply (f_equal (fun o => Capability.service_held (Capability.held o))) in H.
  discriminate H.
Qed.

Lemma handles_related (pb : Bonjour.Plugin) (pc : Ciao.Plugin) :
  Bonjour_handles pb = Ciao_handles pc →
  Capability.is_held (Bonjour.bonjour pb) = Capability.is_held (Ciao.responder pc)
  ∧ Bonjour.options <$> Bonjour.service pb = Ciao.options <$> Ciao.service pc.
Proof. intros H. injection H as H1 H2. split; assumption. Qed.

(** C10, as amended. Over one capability, [init] of the two bindings
    returns or throws alike, writes the same log lines, makes the same
    requests with the same advertisement parameters, and holds the
    responder alike; it also holds the service alike, so that the whole
    observation is the same, when no advertise request of the run fails.
    When the advertise request fails, the ciao binding holds the service
    that [createService] gave it and the bonjour-service binding holds the
    service it held before.  From plugin states that hold the same handles,
    and in which a service held by the bonjour-service binding has its
    [stop] method, [destroy] of the two bindings makes the same requests,
    writes the same line, returns the same value and leaves the same
    state; every service that [init] obtains through the capability has
    that method. *)
Theorem bindings_equivalent (cap : Capability.t) (h : Host) (cfg : Config.t)
        (pb : Bonjour.Plugin) (pc : Ciao.Plugin) :
  Bonjour_handles pb = Ciao_handles pc →
  (Capability.result (Bonjour_observe (run (Bonjour.init h (Bonjour_bind cap) cfg) pb))
   = Capability.result (Ciao_observe (run (Ciao.init h (Ciao_bind cap) cfg) pc))
   ∧ Capability.lines (Bonjour_observe (run (Bonjour.init h (Bonjour_bind cap) cfg) pb))
     = Capability.lines (Ciao_observe (run (Ciao.init h (Ciao_bind cap) cfg) pc))
   ∧ Capability.requests (Bonjour_observe (run (Bonjour.init h (Bonjour_bind cap) cfg) pb))
     = Capability.requests (Ciao_observe (run (Ciao.init h (Ciao_bind cap) cfg) pc))
   ∧ Capability.responder_held
       (Capability.held (Bonjour_observe (run (Bonjour.init h (Bonjour_bind cap) cfg) pb)))
     = Capability.responder_held
         (Capability.held (Ciao_observe (run (Ciao.init h (Ciao_bind cap) cfg) pc))))
  ∧ ((∀ o, Capability.Advertise o
             ∈ Capability.requests
                 (Bonjour_observe (run (Bonjour.init h (Bonjour_bind cap) cfg) pb)) →
           Capability.advertise cap o = None) →
     Bonjour_observe (run (Bonjour.init h (Bonjour_bind cap) cfg) pb)
     = Ciao_observe (run (Ciao.init h (Ciao_bind cap) cfg) pc))
  ∧ (∀ o e, Capability.Advertise o
              ∈ Capability.requests
                  (Bonjour_observe (run (Bonjour.init h (Bonjour_bind cap) cfg) pb)) →
            Capability.advertise cap o = Some e →
            Capability.service_held
              (Capability.held
                 (Ciao_observe (run (Ciao.init h (Ciao_bind cap) cfg) pc)))
            = Some o
            ∧ Capability.service_held
                (Capability.held
                   (Bonjour_observe (run (Bonjour.init h (Bonjour_bind cap) cfg) pb)))
              = Capability.service_held (Bonjour_handles pb))
  ∧ ((∀ s, Bonjour.service pb = Some s → Bonjour.stop s = true) →
     Bonjour_observe (run (Bonjour.destroy (Bonjour_bind cap)) pb)
     = Ciao_observe (run (Ciao.destroy (Ciao_bind cap)) pc))
  ∧ ((∀ s, Bonjour.service pb = Some s → Bonjour.stop s = true) →
     ∀ s, Bonjour.service
            (this (snd (run (Bonjour.init h (Bonjour_bind cap) cfg) pb))) = Some s →
          Bonjour.stop s = true).
Proof.
  intros Hh. apply handles_related in Hh as [Hr Hs].
  destruct pb as [b sb], pc as [r sc]. cbn in Hr, Hs.
  split; [|split; [|split; [|split]]].
  - unfold_init.
    destruct (negb (truthy id (Config.enabled cfg))).
    { cbn. auto. }
    destruct (resolvePort h cfg) as [port|]; [|cbn; auto].
    destruct (negb (number_truthy port)); [cbn; auto|].
    unfold Bonjour_observe, Ciao_observe, Bonjour_handles, Ciao_handles.
    unfold_effects.
    destruct (Capability.construct cap) as [[]|]; cbn; auto.
    destruct (Capability.advertise cap _) as [[]|]; cbn; auto.
  - unfold_init.
    unfold Bonjour_observe, Ciao_observe, Bonjour_handles, Ciao_handles.
    destruct (negb (truthy id (Config.enabled cfg))).
    { cbn. rewrite Hr, Hs. reflexivity. }
    destruct (resolvePort h cfg) as [port|]; [|cbn; rewrite Hr, Hs; reflexivity].
    destruct (negb (number_truthy port)); [cbn; rewrite Hr, Hs; reflexivity|].
    unfold_effects.
    destruct (Capability.construct cap) as [[]|]; cbn; rewrite ?Hr, ?Hs;
      try reflexivity.
    destruct (Capability.advertise cap (buildOptions h cfg port)) as [e|] eqn:Ha;
      [|reflexivity].
    intros Hadv. exfalso.
    assert (Hnone : Capability.advertise cap (buildOptions h cfg port) = None).
    { apply Hadv. destruct e; cbn;
        (apply elem_of_cons; right; apply elem_of_cons; left; reflexivity). }
    congruence.
  - intros o e. unfold_init.
    unfold Bonjour_observe, Ciao_observe, Bonjour_handles, Ciao_handles.
    destruct (negb (truthy id (Config.enabled cfg))).
    { cbn. intros H. inversion H. }
    destruct (resolvePort h cfg) as [port|]; [|cbn; intros H; inversion H].
    destruct (negb (number_truthy port)); [cbn; intros H; inversion H|].
    unfold_effects.
    destruct (Capability.construct cap) as [e0|]; cbn.
    { destruct e0; cbn; intros H; invert_membership; discriminate. }
    destruct (Capability.advertise cap (buildOptions h cfg port)) as [e1|] eqn:Ha.
    + destruct e1; cbn; intros H He; invert_membership; try discriminate;
        match goal with
        | Heq : Capability.Advertise _ = Capability.Advertise _ |- _ =>
            injection Heq as ->
        end; split; reflexivity.
    + cbn. intros H He. invert_membership; try discriminate.
      match goal with
      | Heq : Capability.Advertise _ = Capability.Advertise _ |- _ =>
          injection Heq as ->
      end. congruence.
  - intros Hstop. unfold Bonjour.destroy, Ciao.destroy.
    unfold Bonjour_observe, Ciao_observe, Bonjour_handles, Ciao_handles.
    unfold_effects.
    destruct sb as [sb|], sc as [sc|]; try discriminate Hs;
      destruct b as [b|], r as [r|]; try discriminate Hr; cbn.
    all: try (rewrite (Hstop sb eq_refl); cbn).
    all: try (injection Hs as Hs; rewrite Hs).
    all: try destruct (Capability.stop cap _) as [?|]; cbn.
    all: try destruct (Capability.shutdown cap) as [?|]; cbn.
    all: rewrite ?Hs; reflexivity.
  - intros Hstop s. unfold_init.
    destruct (negb (truthy id (Config.enabled cfg))); [cbn; apply Hstop|].
    destruct (resolvePort h cfg) as [port|]; [|cbn; apply Hstop].
    destruct (negb (number_truthy port)); [cbn; apply Hstop|].
    unfold_effects.
    destruct (Capability.construct cap) as [e0|]; cbn.
    { destruct e0; cbn; apply Hstop. }
    destruct (Capability.advertise cap (buildOptions h cfg port)) as [e1|]; cbn.
    + destruct e1; cbn; apply Hstop.
    + intros [= <-]. reflexivity.
Qed.

Lemma bindings_equivalent_witness :
  Bonjour_observe (run (Bonjour.init host_foo (Bonjour_bind cap_all_ok) config_port)
                       Bonjour.fresh)
  = Ciao_observe (run (Ciao.init host_foo (Ciao_bind cap_all_ok) config_port) Ciao.fresh).
Proof.
  apply (proj1 (proj2 (bindings_equivalent cap_all_ok host_foo config_port
                         Bonjour.fresh Ciao.fresh eq_refl))).
  intros o. reflexivity.
Defined.

(** * Further properties of the code *)

(** ** What the adapter name can be *)

Lemma count_dots_app (a b : string) :
  count_dots (a ++ b) = (count_dots a + count_dots b)%nat.
Proof.
  induction a as [|c a IH].
  - reflexivity.
  - rewrite append_cons. cbn [count_dots]. rewrite IH. lia.
Qed.

Lemma regex_match_dots (s tok : string) :
  regex_match s = Some tok → (3 ≤ count_dots s)%nat.
Proof.
  intros H. apply regex_match_sound in H as (pre & post & -> & _ & _).
  rewrite !count_dots_app.
  change (count_dots adapter_prefix) with 2%nat.
  change (count_dots ".") with 1%nat. lia.
Qed.

(** X1. Whatever the namespace, the extracted adapter name is a usable
    token: it is never empty and holds no dot (it is a captured group or
    the literal [unknown]). *)
Theorem getAdapterName_is_token (h : Host) :
  getAdapterName h ≠ EmptyString ∧ dot_free (getAdapterName h) = true.
Proof.
  unfold getAdapterName.
  destruct (regex_match _) as [tok|] eqn:Hm.
  - apply regex_match_sound in Hm as (_ & _ & _ & Hne & Hd). split; assumption.
  - split; [discriminate|reflexivity].
Qed.

(** X2. The pattern needs the two dots of its prefix and the dot that
    ends the name: a namespace with fewer than three dots, such as
    [system.adapter.foo] without the instance part, yields [unknown]. *)
Theorem getAdapterName_needs_three_dots (h : Host) (ns : string) :
  pluginNamespace h = Some ns → (count_dots ns < 3)%nat →
  getAdapterName h = "unknown".
Proof.
  intros Hns Hlt. unfold getAdapterName. rewrite Hns.
  destruct (string_truthy ns); [|reflexivity].
  destruct (regex_match ns) as [tok|] eqn:Hm; [|reflexivity].
  apply regex_match_dots in Hm. lia.
Qed.

Lemma getAdapterName_needs_three_dots_witness :
  getAdapterName host_no_instance = "unknown".
Proof.
  apply (getAdapterName_needs_three_dots host_no_instance "system.adapter.foo");
    [reflexivity | vm_compute; lia].
Defined.

(** ** When no port is resolved *)

Lemma resolvePort_truthy_iff (h : Host) (cfg : Config.t) :
  truthy number_truthy (resolvePort h cfg) = false ↔
  truthy number_truthy (Config.port cfg) = false
  ∧ (∀ k n, Config.portKey cfg = Some k → k ≠ EmptyString →
            getPortFromConfig h k = Some n → number_truthy n = false)
  ∧ truthy number_truthy (Config.defaultPort cfg) = false.
Proof.
  unfold resolvePort.
  destruct (truthy number_truthy (Config.port cfg)) eqn:Hp;
    destruct (truthy number_truthy (Config.defaultPort cfg)) eqn:Hd;
    destruct (Config.portKey cfg) as [[|c k]|];
    cbn [truthy default from_option id string_truthy negb andb];
    rewrite ?Hp, ?Hd; cbn [negb andb]; rewrite ?Hp, ?Hd.
  all: try (destruct (getPortFromConfig h (String c k)) as [n|] eqn:Hg;
            cbn [truthy negb andb];
            [destruct (number_truthy n) eqn:Hn|];
            cbn [truthy negb andb]; rewrite ?Hd, ?Hn; cbn [truthy negb andb];
            rewrite ?Hd, ?Hn).
  all: split;
    [ intros H;
      first [ discriminate H
            | split; [reflexivity|]; split; [|reflexivity];
              intros k' n' Hk' Hne' Hg';
              first [ discriminate Hk' | injection Hk' as <-; congruence ] ]
    | intros (H1 & H2 & H3);
      first [ discriminate H1 | discriminate H3 | reflexivity | idtac ] ].
  all: rewrite (H2 (String c k) n eq_refl ltac:(discriminate) Hg) in Hn;
    discriminate Hn.
Qed.

(** X3. With the plugin enabled, [init] gives up with the warning exactly
    when none of the three sources holds a truthy port: [config.port] is
    falsy, the native lookup under a non-empty [portKey] gives no truthy
    number (a stored [0] or [NaN] counts as none), and [defaultPort] is
    falsy.  Otherwise it goes on to load the library. *)
Theorem init_warns_iff_no_truthy_source (h : Host) (cfg : Config.t) :
  Config.enabled cfg = Some true →
  (truthy number_truthy (resolvePort h cfg) = false ↔
   truthy number_truthy (Config.port cfg) = false
   ∧ (∀ k n, Config.portKey cfg = Some k → k ≠ EmptyString →
             getPortFromConfig h k = Some n → number_truthy n = false)
   ∧ truthy number_truthy (Config.defaultPort cfg) = false)
  ∧ (truthy number_truthy (resolvePort h cfg) = false →
     (∀ lib w, Bonjour.init h lib cfg w
               = (Ret tt, World (this w) (log w ++ [LogEntry Warn msg_no_port]) (calls w)))
     ∧ (∀ lib w, Ciao.init h lib cfg w
                 = (Ret tt, World (this w) (log w ++ [LogEntry Warn msg_no_port])
                          (calls w))))
  ∧ (truthy number_truthy (resolvePort h cfg) = true →
     (∀ lib w, ∃ rest, calls (snd (Bonjour.init h lib cfg w))
                       = (calls w ++ Bonjour.Import :: rest)%list)
     ∧ (∀ lib w, ∃ rest, calls (snd (Ciao.init h lib cfg w))
                         = (calls w ++ Ciao.Import :: rest)%list)).
Proof.
  intros He. split; [apply resolvePort_truthy_iff|]. split.
  - intros Hf. split; intros lib w; unfold_init; rewrite He; cbn [truthy id negb];
      (destruct (resolvePort h cfg) as [port|]; [|reflexivity]);
      cbn in Hf; rewrite Hf; reflexivity.
  - intros Ht. apply truthy_Some in Ht as (port & Hp & Ht).
    split; intros lib w; unfold_init; rewrite He, Hp, Ht; cbn [truthy id negb];
      unfold_effects; repeat case_reply;
      rewrite <- ?app_assoc; eexists; reflexivity.
Qed.

Lemma init_warns_iff_no_truthy_source_witness :
  Bonjour.init (host_native {[ "x" := VNumber (Num 0) ]}) bonjour_all_ok
               config_key_only (World Bonjour.fresh [] [])
  = (Ret tt, World Bonjour.fresh [LogEntry Warn msg_no_port] []).
Proof.
  refine (proj1 (proj1 (proj2 (init_warns_iff_no_truthy_source
                                 (host_native {[ "x" := VNumber (Num 0) ]})
                                 config_key_only eq_refl))
                       _) bonjour_all_ok (World Bonjour.fresh [] [])).
  reflexivity.
Defined.

(** ** The keys of the TXT record set *)

(** X4. The TXT record set always holds the keys [adapter] and
    [hostname], and beyond them exactly the keys of [config.txt]. *)
Theorem buildTxt_dom (h : Host) (cfg : Config.t) :
  dom (buildTxt h cfg)
  = ({[ "adapter"; "hostname" ]} ∪ dom (default ∅ (Config.txt cfg)) : gset string).
Proof.
  unfold buildTxt, spread.
  rewrite dom_union_L, !dom_insert_L, dom_empty_L.
  apply set_eq. intros x.
  rewrite !elem_of_union, !elem_of_singleton, elem_of_empty. tauto.
Qed.

(** ** How a port is printed *)

(** Below [2^53] every integer is a double and is printed with all its
    digits. *)
Lemma number_to_string_safe (z : Z) :
  0 ≤ z < 2 ^ 53 → number_to_string (Num z) = pretty z.
Proof.
  intros [Hlo Hhi]. unfold number_to_string, positive_to_string.
  destruct (z <? 0) eqn:Hneg; [apply Z.ltb_lt in Hneg; lia|].
  destruct (z <? 2 ^ 53) eqn:Hlt; [reflexivity|].
  apply Z.ltb_ge in Hlt. lia.
Qed.

(** Beyond, digits are rounded to the shortest that read back, and from
    22 digits on the exponent form is used. *)
Lemma number_to_string_large :
  number_to_string (Num (2 ^ 64)) = "18446744073709552000"
  ∧ number_to_string (Num (10 ^ 21)) = "1e+21"
  ∧ number_to_string (Num (2 ^ 70)) = "1.1805916207174113e+21"
  ∧ number_to_string (Num (2 ^ 53 + 1)) = "9007199254740992"
  ∧ number_to_string (Num (- 2 ^ 64)) = "-18446744073709552000"
  ∧ number_to_string (Num (2 ^ 1024)) = "Infinity".
Proof. vm_compute. repeat split; reflexivity. Qed.

(** ** The publish step, outcome by outcome *)

Lemma Bonjour_init_ok (h : Host) (lib : Bonjour.library) (cfg : Config.t)
      (port : number) (b : Bonjour.Instance) (s : Bonjour.Service)
      (w : world Bonjour.Plugin Bonjour.call) :
  Config.enabled cfg = Some true →
  resolvePort h cfg = Some port → number_truthy port = true →
  Bonjour.on_import lib = Ret tt → Bonjour.on_new lib = Ret b →
  Bonjour.on_publish lib (buildOptions h cfg port) = Ret s →
  Bonjour.init h lib cfg w
  = (Ret tt,
     World {| Bonjour.bonjour := Some b; Bonjour.service := Some s |}
           (log w ++ [LogEntry Info (msg_published (resolveServiceType h cfg) port
                                                   (resolveServiceName h cfg))])
           (calls w ++ [Bonjour.Import; Bonjour.New;
                        Bonjour.Publish (buildOptions h cfg port)])).
Proof.
  intros He Hp Ht Hi Hn Hs. unfold_init. rewrite He, Hp, Ht. cbn [truthy id negb].
  unfold_effects. rewrite Hi, Hn. cbn. rewrite Hs. cbn.
  rewrite <- !app_assoc. reflexivity.
Qed.

Lemma Ciao_init_ok (h : Host) (lib : Ciao.library) (cfg : Config.t)
      (port : number) (r : Ciao.Responder) (s : Ciao.CiaoService)
      (w : world Ciao.Plugin Ciao.call) :
  Config.enabled cfg = Some true →
  resolvePort h cfg = Some port → number_truthy port = true →
  Ciao.on_import lib = Ret tt → Ciao.on_getResponder lib = Ret r →
  Ciao.on_createService lib (buildOptions h cfg port) = Ret s →
  Ciao.on_advertise lib s = Ret tt →
  Ciao.init h lib cfg w
  = (Ret tt,
     World {| Ciao.responder := Some r; Ciao.service := Some s |}
           (log w ++ [LogEntry Info (msg_published (resolveServiceType h cfg) port
                                                   (resolveServiceName h cfg))])
           (calls w ++ [Ciao.Import; Ciao.GetResponder;
                        Ciao.CreateService (buildOptions h cfg port);
                        Ciao.Advertise s])).
Proof.
  intros He Hp Ht Hi Hn Hs Ha. unfold_init. rewrite He, Hp, Ht. cbn [truthy id negb].
  unfold_effects. rewrite Hi, Hn. cbn. rewrite Hs. cbn. rewrite Ha. cbn.
  rewrite <- !app_assoc. reflexivity.
Qed.

(** X5. When the plugin is enabled, a port resolves and every library
    call of the publish step returns, [init] returns normally, holds the
    responder and the service handle that the library returned in place of
    whatever handles the plugin held before, writes the one line that
    reports type, port and name, and has made the library calls in source
    order: import, construct, publish (in the ciao binding: import,
    getResponder, createService, advertise). *)
Theorem init_publishes_and_holds_handles (h : Host) (cfg : Config.t) (port : number) :
  Config.enabled cfg = Some true →
  resolvePort h cfg = Some port → number_truthy port = true →
  (∀ lib b s w,
      Bonjour.on_import lib = Ret tt → Bonjour.on_new lib = Ret b →
      Bonjour.on_publish lib (buildOptions h cfg port) = Ret s →
      Bonjour.init h lib cfg w
      = (Ret tt,
         World {| Bonjour.bonjour := Some b; Bonjour.service := Some s |}
               (log w ++ [LogEntry Info (msg_published (resolveServiceType h cfg) port
                                                       (resolveServiceName h cfg))])
               (calls w ++ [Bonjour.Import; Bonjour.New;
                            Bonjour.Publish (buildOptions h cfg port)])))
  ∧ (∀ lib r s w,
      Ciao.on_import lib = Ret tt → Ciao.on_getResponder lib = Ret r →
      Ciao.on_createService lib (buildOptions h cfg port) = Ret s →
      Ciao.on_advertise lib s = Ret tt →
      Ciao.init h lib cfg w
      = (Ret tt,
         World {| Ciao.responder := Some r; Ciao.service := Some s |}
               (log w ++ [LogEntry Info (msg_published (resolveServiceType h cfg) port
                                                       (resolveServiceName h cfg))])
               (calls w ++ [Ciao.Import; Ciao.GetResponder;
                            Ciao.CreateService (buildOptions h cfg port);
                            Ciao.Advertise s]))).
Proof.
  intros He Hp Ht. split.
  - intros lib b s w. apply Bonjour_init_ok; assumption.
  - intros lib r s w. apply Ciao_init_ok; assumption.
Qed.

Lemma init_publishes_and_holds_handles_witness :
  Bonjour.init host_foo bonjour_all_ok config_port
               (World {| Bonjour.bonjour := Some earlier_instance;
                         Bonjour.service := Some service_without_stop |} [] [])
  = (Ret tt,
     World {| Bonjour.bonjour := Some Bonjour.instance;
              Bonjour.service := Some published_service |}
           ([] ++ [LogEntry Info (msg_published (resolveServiceType host_foo config_port)
                                                (Num 8089)
                                                (resolveServiceName host_foo config_port))])
           ([] ++ [Bonjour.Import; Bonjour.New;
                   Bonjour.Publish (buildOptions host_foo config_port (Num 8089))])).
Proof.
  apply (proj1 (init_publishes_and_holds_handles host_foo config_port (Num 8089)
                  eq_refl eq_refl eq_refl));
    reflexivity.
Defined.

(** X6. A thrown value whose [message] can be read and converted to a
    string, thrown by any library call of the publish step, is absorbed:
    [init] returns normally and appends exactly one line, the error line,
    which carries the message (the text [undefined] for a value that has
    no [message]); in the bonjour-service binding the service handle
    stays as it was. *)
Theorem init_absorbs_thrown_values (h : Host) (cfg : Config.t) (port : number)
        (e : thrown) (text : string) :
  Config.enabled cfg = Some true →
  resolvePort h cfg = Some port → number_truthy port = true →
  readable_message e = Some text →
  (∀ lib w, Bonjour_fails lib (buildOptions h cfg port) e →
            fst (Bonjour.init h lib cfg w) = Ret tt
            ∧ log (snd (Bonjour.init h lib cfg w))
              = (log w ++ [LogEntry Error (msg_failed text)])%list
            ∧ Bonjour.service (this (snd (Bonjour.init h lib cfg w)))
              = Bonjour.service (this w))
  ∧ (∀ lib w, Ciao_fails lib (buildOptions h cfg port) e →
              fst (Ciao.init h lib cfg w) = Ret tt
              ∧ log (snd (Ciao.init h lib cfg w))
                = (log w ++ [LogEntry Error (msg_failed text)])%list).
Proof.
  intros He Hp Ht Hn. split.
  - intros lib w Hf.
    exact (Bonjour_init_absorbs h lib cfg port e text w He Hp Ht Hf Hn).
  - intros lib w Hf.
    exact (Ciao_init_absorbs h lib cfg port e text w He Hp Ht Hf Hn).
Qed.

Lemma init_absorbs_thrown_values_witness :
  fst (Bonjour.init host_foo (bonjour_publish_throws ThrownOther) config_port
                    bonjour_start)
  = Ret tt
  ∧ log (snd (Bonjour.init host_foo (bonjour_publish_throws ThrownOther) config_port
                           bonjour_start))
    = (log bonjour_start ++ [LogEntry Error (msg_failed "undefined")])%list
  ∧ Bonjour.service
      (this (snd (Bonjour.init host_foo (bonjour_publish_throws ThrownOther) config_port
                               bonjour_start)))
    = Bonjour.service (this bonjour_start).
Proof.
  apply (proj1 (init_absorbs_thrown_values host_foo config_port (Num 8089) ThrownOther
                  "undefined" eq_refl eq_refl eq_refl eq_refl)
           (bonjour_publish_throws ThrownOther) bonjour_start).
  apply (Bonjour_fails_publish _ _ _ Bonjour.instance); reflexivity.
Defined.

(** X15. A thrown value whose [message] cannot be read or converted to a
    string (a getter or a [toString] that throws, a Symbol) is not
    absorbed either: what the read throws leaves [init], and no line is
    written. *)
Theorem init_rethrows_on_unreadable (h : Host) (cfg : Config.t) (port : number)
        (raised : thrown) :
  Config.enabled cfg = Some true →
  resolvePort h cfg = Some port → number_truthy port = true →
  (∀ lib w, Bonjour_fails lib (buildOptions h cfg port) (ThrownUnreadable raised) →
            fst (Bonjour.init h lib cfg w) = Throw raised
            ∧ log (snd (Bonjour.init h lib cfg w)) = log w)
  ∧ (∀ lib w, Ciao_fails lib (buildOptions h cfg port) (ThrownUnreadable raised) →
              fst (Ciao.init h lib cfg w) = Throw raised
              ∧ log (snd (Ciao.init h lib cfg w)) = log w).
Proof.
  intros He Hp Ht. split; intros lib w Hf; unfold_init;
    rewrite He, Hp, Ht; cbn [truthy id negb].
  - destruct Hf as [Hi | Hi Hb | b Hi Hb Hs]; unfold_effects;
      rewrite ?Hi, ?Hb, ?Hs; cbn; split; reflexivity.
  - destruct Hf as [Hi | Hi Hb | r Hi Hb Hs | r s Hi Hb Hs Ha]; unfold_effects;
      rewrite ?Hi, ?Hb, ?Hs; cbn; rewrite ?Ha; cbn; split; reflexivity.
Qed.

Lemma init_rethrows_on_unreadable_witness :
  fst (Bonjour.init host_foo (bonjour_publish_throws (ThrownUnreadable symbol_error))
                    config_port bonjour_start)
  = Throw symbol_error
  ∧ log (snd (Bonjour.init host_foo
                           (bonjour_publish_throws (ThrownUnreadable symbol_error))
                           config_port bonjour_start))
    = log bonjour_start.
Proof.
  apply (proj1 (init_rethrows_on_unreadable host_foo config_port (Num 8089)
                  symbol_error eq_refl eq_refl eq_refl)
           (bonjour_publish_throws (ThrownUnreadable symbol_error)) bonjour_start).
  apply (Bonjour_fails_publish _ _ _ Bonjour.instance); reflexivity.
Defined.

(** X7. When the value thrown by any library call of the publish step
    is [undefined] or [null], the handler itself fails on reading
    [err.message]: [init] throws a [TypeError] to its caller and the log
    is left without any line about the failure. *)
Theorem init_rethrows_on_nullish (h : Host) (cfg : Config.t) (port : number)
        (e : thrown) :
  Config.enabled cfg = Some true →
  resolvePort h cfg = Some port → number_truthy port = true →
  is_nullish e = true →
  (∀ lib w, Bonjour_fails lib (buildOptions h cfg port) e →
            (∃ m, fst (Bonjour.init h lib cfg w) = Throw (ThrownError m))
            ∧ log (snd (Bonjour.init h lib cfg w)) = log w)
  ∧ (∀ lib w, Ciao_fails lib (buildOptions h cfg port) e →
              (∃ m, fst (Ciao.init h lib cfg w) = Throw (ThrownError m))
              ∧ log (snd (Ciao.init h lib cfg w)) = log w).
Proof.
  intros He Hp Ht Hn. split; intros lib w Hf; unfold_init;
    rewrite He, Hp, Ht; cbn [truthy id negb].
  - destruct Hf as [Hi | Hi Hb | b Hi Hb Hs]; unfold_effects;
      rewrite ?Hi, ?Hb, ?Hs; cbn; destruct e; try discriminate; cbn;
      (split; [eexists; reflexivity | reflexivity]).
  - destruct Hf as [Hi | Hi Hb | r Hi Hb Hs | r s Hi Hb Hs Ha]; unfold_effects;
      rewrite ?Hi, ?Hb, ?Hs; cbn; rewrite ?Ha; cbn;
      destruct e; try discriminate; cbn;
      (split; [eexists; reflexivity | reflexivity]).
Qed.

Lemma init_rethrows_on_nullish_witness :
  (∃ m, fst (Ciao.init host_foo (ciao_advertise_throws ThrownNull) config_port
                       ciao_start)
        = Throw (ThrownError m))
  ∧ log (snd (Ciao.init host_foo (ciao_advertise_throws ThrownNull) config_port
                        ciao_start))
    = log ciao_start.
Proof.
  apply (proj2 (init_rethrows_on_nullish host_foo config_port (Num 8089) ThrownNull
                  eq_refl eq_refl eq_refl eq_refl)
           (ciao_advertise_throws ThrownNull) ciao_start).
  apply (Ciao_fails_advertise _ _ _ Ciao.the_responder
           {| Ciao.options := buildOptions host_foo config_port (Num 8089) |});
    reflexivity.
Defined.

(** ** Which library calls each method makes *)

(** X8. [init] only loads, constructs and publishes: it never stops a
    service nor shuts a responder down, also when the plugin already holds
    handles from an earlier [init].  [destroy] only tears down: the only
    service it stops is the one the plugin holds, and it never imports,
    constructs or publishes. *)
Theorem methods_keep_to_their_calls :
  (∀ h lib cfg p c,
      c ∈ calls (snd (run (Bonjour.init h lib cfg) p)) →
      c = Bonjour.Import ∨ c = Bonjour.New ∨ ∃ o, c = Bonjour.Publish o)
  ∧ (∀ h lib cfg p c,
      c ∈ calls (snd (run (Ciao.init h lib cfg) p)) →
      c = Ciao.Import ∨ c = Ciao.GetResponder
      ∨ (∃ o, c = Ciao.CreateService o) ∨ ∃ s, c = Ciao.Advertise s)
  ∧ (∀ lib p c,
      c ∈ calls (snd (run (Bonjour.destroy lib) p)) →
      (∃ s, c = Bonjour.Stop s ∧ Bonjour.service p = Some s)
      ∨ c = Bonjour.UnpublishAll ∨ c = Bonjour.Destroy)
  ∧ (∀ lib p c,
      c ∈ calls (snd (run (Ciao.destroy lib) p)) →
      (∃ s, c = Ciao.End_ s ∧ Ciao.service p = Some s) ∨ c = Ciao.Shutdown).
Proof.
  split; [|split; [|split]].
  - intros h lib cfg p c. unfold_init.
    destruct (negb (truthy id (Config.enabled cfg))).
    { cbn. intros H. inversion H. }
    destruct (resolvePort h cfg) as [port|]; [|cbn; intros H; inversion H].
    destruct (negb (number_truthy port)); [cbn; intros H; inversion H|].
    intros H. unfold_effects. repeat case_reply; invert_membership; eauto.
  - intros h lib cfg p c. unfold_init.
    destruct (negb (truthy id (Config.enabled cfg))).
    { cbn. intros H. inversion H. }
    destruct (resolvePort h cfg) as [port|]; [|cbn; intros H; inversion H].
    destruct (negb (number_truthy port)); [cbn; intros H; inversion H|].
    intros H. unfold_effects. repeat case_reply; invert_membership; eauto 6.
  - intros lib [b s] c H. unfold Bonjour.destroy in H. unfold_effects.
    destruct s as [s|]; destruct b as [b|]; cbn in H;
      try destruct (Bonjour.stop s); cbn in H;
      try destruct (Bonjour.on_stop lib s); cbn in H;
      try destruct (Bonjour.on_unpublishAll lib); cbn in H;
      try destruct (Bonjour.on_destroy lib); cbn in H;
      invert_membership; eauto.
  - intros lib [r s] c H. unfold Ciao.destroy in H. unfold_effects.
    destruct s as [s|]; destruct r as [r|]; cbn in H;
      try destruct (Ciao.on_end lib s); cbn in H;
      try destruct (Ciao.on_shutdown lib); cbn in H;
      invert_membership; eauto.
Qed.

Lemma methods_keep_to_their_calls_witness :
  Bonjour.New = Bonjour.Import ∨ Bonjour.New = Bonjour.New
  ∨ ∃ o, Bonjour.New = Bonjour.Publish o.
Proof.
  apply (proj1 methods_keep_to_their_calls host_foo bonjour_all_ok config_port
           {| Bonjour.bonjour := Some Bonjour.instance;
              Bonjour.service := Some published_service |}
           Bonjour.New).
  vm_compute. apply elem_of_cons. right. apply elem_of_cons. left. reflexivity.
Defined.

(** X9. In the bonjour-service binding the two shutdown calls share one
    [try]: when [unpublishAll] throws, [bonjour.destroy()] is never called;
    [destroy] still returns [true] and drops both handles. *)
Theorem failed_unpublish_skips_destroy (lib : Bonjour.library) (p : Bonjour.Plugin)
        (b : Bonjour.Instance) (e : thrown) :
  Bonjour.bonjour p = Some b →
  Bonjour.on_unpublishAll lib = Throw e →
  fst (run (Bonjour.destroy lib) p) = Ret true
  ∧ this (snd (run (Bonjour.destroy lib) p)) = Bonjour.fresh
  ∧ Bonjour.UnpublishAll ∈ calls (snd (run (Bonjour.destroy lib) p))
  ∧ Bonjour.Destroy ∉ calls (snd (run (Bonjour.destroy lib) p)).
Proof.
  destruct p as [b0 s]. cbn. intros -> Hu.
  unfold Bonjour.destroy. unfold_effects.
  destruct s as [s|]; cbn;
    try destruct (Bonjour.stop s); cbn;
    try destruct (Bonjour.on_stop lib s); cbn;
    rewrite Hu; cbn.
  all: split; [reflexivity|]; split; [reflexivity|]; split.
  all: try (intros H; invert_membership; discriminate).
  all: repeat first [ apply elem_of_cons; left; reflexivity
                    | apply elem_of_cons; right ].
Qed.

Lemma failed_unpublish_skips_destroy_witness :
  fst (run (Bonjour.destroy (bonjour_teardown_throws ThrownOther))
           {| Bonjour.bonjour := Some Bonjour.instance; Bonjour.service := None |})
  = Ret true
  ∧ this (snd (run (Bonjour.destroy (bonjour_teardown_throws ThrownOther))
                   {| Bonjour.bonjour := Some Bonjour.instance;
                      Bonjour.service := None |}))
    = Bonjour.fresh
  ∧ Bonjour.UnpublishAll
      ∈ calls (snd (run (Bonjour.destroy (bonjour_teardown_throws ThrownOther))
                        {| Bonjour.bonjour := Some Bonjour.instance;
                           Bonjour.service := None |}))
  ∧ Bonjour.Destroy
      ∉ calls (snd (run (Bonjour.destroy (bonjour_teardown_throws ThrownOther))
                        {| Bonjour.bonjour := Some Bonjour.instance;
                           Bonjour.service := None |})).
Proof.
  apply (failed_unpublish_skips_destroy (bonjour_teardown_throws ThrownOther)
           {| Bonjour.bonjour := Some Bonjour.instance; Bonjour.service := None |}
           Bonjour.instance ThrownOther);
    reflexivity.
Defined.

(** X10. In the bonjour-service binding [stop] is called through [?.]: a
    held service whose [stop] method is not defined is dropped without any
    call, and teardown goes on exactly as if no service were held. *)
Theorem destroy_without_stop_method (lib : Bonjour.library) (s : Bonjour.Service)
        (b : option Bonjour.Instance) (l : list log_entry) (c : list Bonjour.call) :
  Bonjour.stop s = false →
  Bonjour.destroy lib (World {| Bonjour.bonjour := b; Bonjour.service := Some s |} l c)
  = Bonjour.destroy lib (World {| Bonjour.bonjour := b; Bonjour.service := None |} l c).
Proof.
  intros Hs. unfold Bonjour.destroy. unfold_effects. rewrite Hs. reflexivity.
Qed.

Lemma destroy_without_stop_method_witness :
  Bonjour.destroy bonjour_all_ok
    (World {| Bonjour.bonjour := Some Bonjour.instance;
              Bonjour.service := Some service_without_stop |} [] [])
  = Bonjour.destroy bonjour_all_ok
      (World {| Bonjour.bonjour := Some Bonjour.instance;
                Bonjour.service := None |} [] []).
Proof.
  apply (destroy_without_stop_method bonjour_all_ok service_without_stop).
  reflexivity.
Defined.

(** ** The lifecycle: [init], then [destroy] *)

(** X11. After an [init] that published, [destroy] stops the very service
    handle that the publish call returned (in the bonjour-service binding
    when that handle has a [stop] method, and with no call on it
    otherwise), then shuts the responder down, and the plugin is back in
    its initial state; the log holds the publish line and the teardown
    line.  In the ciao binding this holds whatever the teardown calls
    answer; in the bonjour-service binding, whatever [stop] and
    [bonjour.destroy()] answer once [unpublishAll] returns. *)
Theorem lifecycle_round_trip (h : Host) (cfg : Config.t) (port : number) :
  Config.enabled cfg = Some true →
  resolvePort h cfg = Some port → number_truthy port = true →
  (∀ lib1 lib2 b s p,
      Bonjour.on_import lib1 = Ret tt → Bonjour.on_new lib1 = Ret b →
      Bonjour.on_publish lib1 (buildOptions h cfg port) = Ret s →
      Bonjour.on_unpublishAll lib2 = Ret tt →
      run (exec Bonjour.init h lib1 cfg then Bonjour.destroy lib2) p
      = (Ret true,
         World Bonjour.fresh
               [LogEntry Info (msg_published (resolveServiceType h cfg) port
                                             (resolveServiceName h cfg));
                LogEntry Debug msg_destroyed]
               ([Bonjour.Import; Bonjour.New; Bonjour.Publish (buildOptions h cfg port)]
                  ++ (if Bonjour.stop s then [Bonjour.Stop s] else [])
                  ++ [Bonjour.UnpublishAll; Bonjour.Destroy])))
  ∧ (∀ lib1 lib2 r s p,
      Ciao.on_import lib1 = Ret tt → Ciao.on_getResponder lib1 = Ret r →
      Ciao.on_createService lib1 (buildOptions h cfg port) = Ret s →
      Ciao.on_advertise lib1 s = Ret tt →
      run (exec Ciao.init h lib1 cfg then Ciao.destroy lib2) p
      = (Ret true,
         World Ciao.fresh
               [LogEntry Info (msg_published (resolveServiceType h cfg) port
                                             (resolveServiceName h cfg));
                LogEntry Debug msg_destroyed]
               [Ciao.Import; Ciao.GetResponder;
                Ciao.CreateService (buildOptions h cfg port); Ciao.Advertise s;
                Ciao.End_ s; Ciao.Shutdown])).
Proof.
  intros He Hp Ht. split.
  - intros lib1 lib2 b s p Hi Hn Hs Hu. unfold run, bind.
    rewrite (Bonjour_init_ok h lib1 cfg port b s _ He Hp Ht Hi Hn Hs).
    unfold Bonjour.destroy. unfold_effects.
    destruct (Bonjour.stop s); cbn;
      [destruct (Bonjour.on_stop lib2 s); cbn|];
      rewrite Hu; cbn; destruct (Bonjour.on_destroy lib2); reflexivity.
  - intros lib1 lib2 r s p Hi Hn Hs Ha. unfold run, bind.
    rewrite (Ciao_init_ok h lib1 cfg port r s _ He Hp Ht Hi Hn Hs Ha).
    unfold Ciao.destroy. unfold_effects.
    destruct (Ciao.on_end lib2 s); cbn;
      destruct (Ciao.on_shutdown lib2); reflexivity.
Qed.

Lemma lifecycle_round_trip_witness :
  run (exec Ciao.init host_foo ciao_all_ok config_port then
       Ciao.destroy (ciao_advertise_throws ThrownNull))
      Ciao.fresh
  = (Ret true,
     World Ciao.fresh
           [LogEntry Info (msg_published (resolveServiceType host_foo config_port)
                                         (Num 8089)
                                         (resolveServiceName host_foo config_port));
            LogEntry Debug msg_destroyed]
           [Ciao.Import; Ciao.GetResponder;
            Ciao.CreateService (buildOptions host_foo config_port (Num 8089));
            Ciao.Advertise {| Ciao.options := buildOptions host_foo config_port (Num 8089) |};
            Ciao.End_ {| Ciao.options := buildOptions host_foo config_port (Num 8089) |};
            Ciao.Shutdown]).
Proof.
  apply (proj2 (lifecycle_round_trip host_foo config_port (Num 8089)
                  eq_refl eq_refl eq_refl)
           ciao_all_ok (ciao_advertise_throws ThrownNull) Ciao.the_responder);
    reflexivity.
Defined.

(** X12. What a failed publish leaves behind is torn down by the
    [destroy] that follows.  From the initial state, when the publish call
    throws a value that [init] absorbs, the bonjour-service binding is left
    holding only the responder; [destroy] then calls [unpublishAll] on it,
    and [bonjour.destroy()] as well when [unpublishAll] returns but not
    when it throws.  The ciao binding, where it is [advertise] that
    throws, is left holding the responder and the unadvertised service;
    [destroy] then ends that service and shuts the responder down.  In
    both, [destroy] returns [true] and the plugin holds no handle. *)
Theorem failed_publish_then_destroy (h : Host) (cfg : Config.t) (port : number)
        (e : thrown) (text : string) :
  Config.enabled cfg = Some true →
  resolvePort h cfg = Some port → number_truthy port = true →
  readable_message e = Some text →
  (∀ lib1 lib2 b,
      Bonjour.on_import lib1 = Ret tt → Bonjour.on_new lib1 = Ret b →
      Bonjour.on_publish lib1 (buildOptions h cfg port) = Throw e →
      this (snd (run (Bonjour.init h lib1 cfg) Bonjour.fresh))
      = {| Bonjour.bonjour := Some b; Bonjour.service := None |}
      ∧ fst (run (exec Bonjour.init h lib1 cfg then Bonjour.destroy lib2) Bonjour.fresh)
        = Ret true
      ∧ this (snd (run (exec Bonjour.init h lib1 cfg then Bonjour.destroy lib2)
                       Bonjour.fresh))
        = Bonjour.fresh
      ∧ calls (snd (run (exec Bonjour.init h lib1 cfg then Bonjour.destroy lib2)
                        Bonjour.fresh))
        = ([Bonjour.Import; Bonjour.New; Bonjour.Publish (buildOptions h cfg port);
            Bonjour.UnpublishAll]
             ++ match Bonjour.on_unpublishAll lib2 with
                | Ret _ => [Bonjour.Destroy]
                | Throw _ => []
                end)%list)
  ∧ (∀ lib1 lib2 r s,
      Ciao.on_import lib1 = Ret tt → Ciao.on_getResponder lib1 = Ret r →
      Ciao.on_createService lib1 (buildOptions h cfg port) = Ret s →
      Ciao.on_advertise lib1 s = Throw e →
      this (snd (run (Ciao.init h lib1 cfg) Ciao.fresh))
      = {| Ciao.responder := Some r; Ciao.service := Some s |}
      ∧ fst (run (exec Ciao.init h lib1 cfg then Ciao.destroy lib2) Ciao.fresh)
        = Ret true
      ∧ this (snd (run (exec Ciao.init h lib1 cfg then Ciao.destroy lib2) Ciao.fresh))
        = Ciao.fresh
      ∧ calls (snd (run (exec Ciao.init h lib1 cfg then Ciao.destroy lib2) Ciao.fresh))
        = [Ciao.Import; Ciao.GetResponder;
           Ciao.CreateService (buildOptions h cfg port); Ciao.Advertise s;
           Ciao.End_ s; Ciao.Shutdown]).
Proof.
  intros He Hp Ht Hn. split.
  - intros lib1 lib2 b Hi Hb Hs. unfold run, bind. unfold_init.
    rewrite He, Hp, Ht. cbn [truthy id negb].
    unfold Bonjour.destroy. unfold_effects. rewrite Hi, Hb. cbn. rewrite Hs. cbn.
    destruct e; try discriminate Hn; cbn;
      (destruct (Bonjour.on_unpublishAll lib2); cbn;
       [destruct (Bonjour.on_destroy lib2); cbn|]);
      repeat split; reflexivity.
  - intros lib1 lib2 r s Hi Hr Hs Ha. unfold run, bind. unfold_init.
    rewrite He, Hp, Ht. cbn [truthy id negb].
    unfold Ciao.destroy. unfold_effects. rewrite Hi, Hr. cbn. rewrite Hs. cbn.
    rewrite Ha. cbn.
    destruct e; try discriminate Hn; cbn;
      destruct (Ciao.on_end lib2 s); cbn;
      destruct (Ciao.on_shutdown lib2); cbn;
      repeat split; reflexivity.
Qed.

Lemma failed_publish_then_destroy_witness :
  this (snd (run (Bonjour.init host_foo (bonjour_publish_throws (ThrownError "boom"))
                               config_port)
                 Bonjour.fresh))
  = {| Bonjour.bonjour := Some Bonjour.instance; Bonjour.service := None |}
  ∧ fst (run (exec Bonjour.init host_foo (bonjour_publish_throws (ThrownError "boom"))
                                config_port
              then Bonjour.destroy (bonjour_teardown_throws ThrownOther))
             Bonjour.fresh)
    = Ret true
  ∧ this (snd (run (exec Bonjour.init host_foo
                                      (bonjour_publish_throws (ThrownError "boom"))
                                      config_port
                    then Bonjour.destroy (bonjour_teardown_throws ThrownOther))
                   Bonjour.fresh))
    = Bonjour.fresh
  ∧ calls (snd (run (exec Bonjour.init host_foo
                                       (bonjour_publish_throws (ThrownError "boom"))
                                       config_port
                     then Bonjour.destroy (bonjour_teardown_throws ThrownOther))
                    Bonjour.fresh))
    = ([Bonjour.Import; Bonjour.New;
        Bonjour.Publish (buildOptions host_foo config_port (Num 8089));
        Bonjour.UnpublishAll] ++ [])%list.
Proof.
  apply (proj1 (failed_publish_then_destroy host_foo config_port (Num 8089)
                  (ThrownError "boom") "boom" eq_refl eq_refl eq_refl eq_refl)
           (bonjour_publish_throws (ThrownError "boom"))
           (bonjour_teardown_throws ThrownOther)
           Bonjour.instance);
    reflexivity.
Defined.

(** ** What the operator sees *)

(** X13. Every run leaves exactly one log line, appended to the log: an
    [init] that returns has written one line (disabled, no port, published
    or failed) and an [init] that throws has written none; [destroy]
    always writes the one debug line, whatever the teardown calls
    answered, so that a failed stop or shutdown leaves no trace. *)
Theorem every_run_logs_one_line :
  (∀ h lib cfg w,
      match fst (Bonjour.init h lib cfg w) with
      | Ret _ => ∃ line, log (snd (Bonjour.init h lib cfg w)) = (log w ++ [line])%list
      | Throw _ => log (snd (Bonjour.init h lib cfg w)) = log w
      end)
  ∧ (∀ h lib cfg w,
      match fst (Ciao.init h lib cfg w) with
      | Ret _ => ∃ line, log (snd (Ciao.init h lib cfg w)) = (log w ++ [line])%list
      | Throw _ => log (snd (Ciao.init h lib cfg w)) = log w
      end)
  ∧ (∀ lib w, log (snd (Bonjour.destroy lib w))
              = (log w ++ [LogEntry Debug msg_destroyed])%list)
  ∧ (∀ lib w, log (snd (Ciao.destroy lib w))
              = (log w ++ [LogEntry Debug msg_destroyed])%list).
Proof.
  split; [|split; [|split]].
  - intros h lib cfg w. unfold_init.
    destruct (negb (truthy id (Config.enabled cfg))); [cbn; eauto|].
    destruct (resolvePort h cfg) as [port|]; [|cbn; eauto].
    destruct (negb (number_truthy port)); [cbn; eauto|].
    unfold_effects.
    destruct (Bonjour.on_import lib) as [[]|e]; cbn;
      [destruct (Bonjour.on_new lib) as [b|e]; cbn;
       [destruct (Bonjour.on_publish lib _) as [s|e]; cbn|]|];
      try destruct e; cbn; eauto.
  - intros h lib cfg w. unfold_init.
    destruct (negb (truthy id (Config.enabled cfg))); [cbn; eauto|].
    destruct (resolvePort h cfg) as [port|]; [|cbn; eauto].
    destruct (negb (number_truthy port)); [cbn; eauto|].
    unfold_effects.
    destruct (Ciao.on_import lib) as [[]|e]; cbn;
      [destruct (Ciao.on_getResponder lib) as [r|e]; cbn;
       [destruct (Ciao.on_createService lib _) as [s|e]; cbn;
        [destruct (Ciao.on_advertise lib s) as [[]|e]; cbn|]|]|];
      try destruct e; cbn; eauto.
  - intros lib w. apply Bonjour_destroy_result.
  - intros lib w. apply Ciao_destroy_result.
Qed.

(** ** A port key that leads nowhere *)

Lemma Bonjour_init_falsy_port (h : Host) (lib : Bonjour.library) (cfg : Config.t) :
  Config.enabled cfg = Some true →
  truthy number_truthy (resolvePort h cfg) = false →
  Bonjour.init h lib cfg = log_at Warn msg_no_port.
Proof.
  intros He Hf. unfold_init. rewrite He. cbn [truthy id negb].
  destruct (resolvePort h cfg) as [port|]; [|reflexivity].
  cbn in Hf. rewrite Hf. reflexivity.
Qed.

Lemma Ciao_init_falsy_port (h : Host) (lib : Ciao.library) (cfg : Config.t) :
  Config.enabled cfg = Some true →
  truthy number_truthy (resolvePort h cfg) = false →
  Ciao.init h lib cfg = log_at Warn msg_no_port.
Proof.
  intros He Hf. unfold_init. rewrite He. cbn [truthy id negb].
  destruct (resolvePort h cfg) as [port|]; [|reflexivity].
  cbn in Hf. rewrite Hf. reflexivity.
Qed.

Lemma resolvePort_without_portKey (h : Host) (cfg : Config.t) (k : string) :
  Config.portKey cfg = Some k → getPortFromConfig h k = None →
  resolvePort h cfg = resolvePort h (without_portKey cfg)
  ∨ (truthy number_truthy (resolvePort h cfg) = false
     ∧ truthy number_truthy (resolvePort h (without_portKey cfg)) = false).
Proof.
  intros Hk Hg. unfold resolvePort, without_portKey.
  cbn [Config.port Config.portKey Config.defaultPort]. rewrite Hk.
  cbn [truthy default from_option id]. rewrite andb_false_r.
  destruct (truthy number_truthy (Config.port cfg)) eqn:Hp;
    destruct (truthy number_truthy (Config.defaultPort cfg)) eqn:Hd;
    destruct (string_truthy k);
    cbn [truthy negb andb]; rewrite ?Hg, ?Hp, ?Hd;
    cbn [truthy negb andb]; rewrite ?Hp, ?Hd;
    first [ left; reflexivity
          | right; split; first [reflexivity | assumption] ].
Qed.

(** X14. A [portKey] whose lookup gives nothing (no parent package, no
    [native] object, no such key, or a value that is not a number, such as
    the string ["9999"]) changes nothing: [init] behaves exactly as it
    does for the same configuration without [portKey]. *)
Theorem dangling_portKey_is_ignored (h : Host) (cfg : Config.t) (k : string) :
  Config.portKey cfg = Some k → getPortFromConfig h k = None →
  (∀ lib, Bonjour.init h lib cfg = Bonjour.init h lib (without_portKey cfg))
  ∧ (∀ lib, Ciao.init h lib cfg = Ciao.init h lib (without_portKey cfg)).
Proof.
  intros Hk Hg.
  destruct (Config.enabled cfg) as [[|]|] eqn:He.
  2,3: split; intros lib; unfold_init; cbn [Config.enabled without_portKey];
       rewrite He; reflexivity.
  destruct (resolvePort_without_portKey h cfg k Hk Hg) as [Heq | [Hf1 Hf2]].
  - split; intros lib; unfold_init; rewrite <- Heq; reflexivity.
  - split; intros lib.
    + rewrite (Bonjour_init_falsy_port h lib cfg He Hf1).
      rewrite (Bonjour_init_falsy_port h lib (without_portKey cfg) He Hf2).
      reflexivity.
    + rewrite (Ciao_init_falsy_port h lib cfg He Hf1).
      rewrite (Ciao_init_falsy_port h lib (without_portKey cfg) He Hf2).
      reflexivity.
Qed.

Lemma dangling_portKey_is_ignored_witness :
  Bonjour.init host_port_as_string bonjour_all_ok config_key_and_default
  = Bonjour.init host_port_as_string bonjour_all_ok
                 (without_portKey config_key_and_default).
Proof.
  apply (proj1 (dangling_portKey_is_ignored host_port_as_string
                  config_key_and_default "x"
                  ltac:(reflexivity) ltac:(reflexivity))).
Defined.
